(** * FY6600 function-generator driver (sds1004x_bode/awgdrivers/fy6600.py)

    A shallow embedding of the driver and of the part of the Python
    semantics it relies on: numbers that are either unbounded integers or
    IEEE-754 binary64 floats, list indexing with negative indices,
    [%]-formatting of numbers, exceptions that leave earlier mutations in
    place, and a serial port seen as a trace of writes and delays.

    Debug printing ([printdebug], inherited from [BaseAWG]) touches
    neither the object nor the port and is left out. *)

From Stdlib Require Import ZArith List String Ascii Bool Lia DecimalString.
From Stdlib Require Import Floats.SpecFloat.
Import ListNotations.

Local Open Scope string_scope.
Local Open Scope Z_scope.

(** ** Python numbers *)

Module PyNum.

(** binary64: 53 bits of precision, infinities at exponent 1024. *)
Definition prec : Z := 53.
Definition emax : Z := 1024.

Abbreviation float := spec_float.

Definition fadd : float -> float -> float := SFadd prec emax.
Definition fdiv : float -> float -> float := SFdiv prec emax.

(** A Python number: [int] (unbounded) or [float]. *)
Inductive num : Type :=
| PyInt (n : Z)
| PyFloat (f : float).

(** The exceptions the driver can raise or let through. *)
Inductive exn : Type :=
| UnknownChannelError (msg : string)
| ValueError (msg : string)
| TypeError
| IndexError
| ZeroDivisionError
| OverflowError
| AttributeError
| SerialException.

Inductive result (A : Type) : Type :=
| Ok (a : A)
| Raise (e : exn).
Arguments Ok {A} a.
Arguments Raise {A} e.

(** [float(n)]: the nearest binary64, ties to even; a magnitude that
    rounds past the largest finite float raises [OverflowError]. *)
Definition float_of_int (n : Z) : result float :=
  match binary_normalize prec emax n 0 false with
  | S754_infinity _ => Raise OverflowError
  | f => Ok f
  end.

Definition to_float (x : num) : result float :=
  match x with
  | PyInt n => float_of_int n
  | PyFloat f => Ok f
  end.

Definition is_zero (f : float) : bool :=
  match f with S754_zero _ => true | _ => false end.

(** [a / b] on two floats: a zero divisor of either sign raises. *)
Definition float_truediv (a b : float) : result float :=
  if is_zero b then Raise ZeroDivisionError else Ok (fdiv a b).

(** [a / b] on two ints: the correctly rounded quotient, computed on the
    integers themselves (not on their float conversions). *)
Definition int_truediv (a b : Z) : result float :=
  match b with
  | Z0 => Raise ZeroDivisionError
  | _ =>
    match a with
    | Z0 => Ok (S754_zero (b <? 0))
    | _ =>
      match fdiv (S754_finite (a <? 0) (Z.to_pos (Z.abs a)) 0)
                 (S754_finite (b <? 0) (Z.to_pos (Z.abs b)) 0) with
      | S754_infinity _ => Raise OverflowError
      | q => Ok q
      end
    end
  end.

Definition bind_result {A B} (r : result A) (k : A -> result B) : result B :=
  match r with
  | Ok a => k a
  | Raise e => Raise e
  end.

(** [a + b]: int + int stays an int, anything else is a float sum. *)
Definition add (a b : num) : result num :=
  match a, b with
  | PyInt x, PyInt y => Ok (PyInt (x + y))
  | _, _ =>
    bind_result (to_float a) (fun x =>
    bind_result (to_float b) (fun y => Ok (PyFloat (fadd x y))))
  end.

(** [a / b]: always a float. *)
Definition truediv (a b : num) : result num :=
  match a, b with
  | PyInt x, PyInt y =>
    bind_result (int_truediv x y) (fun q => Ok (PyFloat q))
  | _, _ =>
    bind_result (to_float a) (fun x =>
    bind_result (to_float b) (fun y =>
    bind_result (float_truediv x y) (fun q => Ok (PyFloat q))))
  end.

(** Exact comparison of a float with an integer (Python compares the
    mathematical values; a NaN compares with nothing). *)
Definition signed (s : bool) (m : positive) : Z :=
  if s then Zneg m else Zpos m.

Definition compare_float_int (f : float) (n : Z) : option comparison :=
  match f with
  | S754_nan => None
  | S754_infinity s => Some (if s then Lt else Gt)
  | S754_zero _ => Some (0 ?= n)
  | S754_finite s m e =>
    if 0 <=? e then Some (signed s m * 2 ^ e ?= n)
    else Some (signed s m ?= n * 2 ^ (- e))
  end.

Definition compare (a b : num) : option comparison :=
  match a, b with
  | PyInt x, PyInt y => Some (x ?= y)
  | PyFloat x, PyFloat y => SFcompare x y
  | PyFloat x, PyInt y => compare_float_int x y
  | PyInt x, PyFloat y => option_map CompOpp (compare_float_int y x)
  end.

(** [a == b] and [a < b]. *)
Definition eqb (a b : num) : bool :=
  match compare a b with Some Eq => true | _ => false end.

Definition ltb (a b : num) : bool :=
  match compare a b with Some Lt => true | _ => false end.

(** Float literals of the source and of the specification's examples. *)
Definition f0_5 : float := S754_finite false 4503599627370496 (-53).
Definition f0_75 : float := S754_finite false 6755399441055744 (-53).
Definition f1 : float := S754_finite false 4503599627370496 (-52).
Definition f2 : float := S754_finite false 4503599627370496 (-51).
Definition f50 : float := S754_finite false 7036874417766400 (-47).
Definition f150 : float := S754_finite false 5277655813324800 (-45).
Definition f360 : float := S754_finite false 6333186975989760 (-44).

End PyNum.
Import PyNum.

(** ** Python strings and number formatting *)

Module PyStr.

(** [str(n)] for a non-negative and for an arbitrary int. *)
Definition str_nat (n : Z) : string := NilZero.string_of_uint (N.to_uint (Z.to_N n)).
Definition str_int (n : Z) : string := NilZero.string_of_int (Z.to_int n).

(** [s.replace(c, "")] for a one-character [c]. *)
Fixpoint remove_char (c : ascii) (s : string) : string :=
  match s with
  | EmptyString => EmptyString
  | String a s' =>
    if Ascii.eqb a c then remove_char c s' else String a (remove_char c s')
  end.

Fixpoint zeros (k : nat) : string :=
  match k with
  | O => ""
  | S k' => String "0" (zeros k')
  end.

(** [s.zfill(w)] on a digit string. *)
Definition zfill (w : nat) (s : string) : string :=
  zeros (w - String.length s) ++ s.

(** [num / den] rounded to the nearest integer, ties to even
    ([0 <= num], [0 < den]). *)
Definition round_half_even (num den : Z) : Z :=
  let q := num / den in
  match 2 * (num mod den) ?= den with
  | Lt => q
  | Gt => q + 1
  | Eq => if Z.even q then q else q + 1
  end.

(** [m * 2^e * 10^p], correctly rounded to an integer. *)
Definition scaled (p : nat) (m : positive) (e : Z) : Z :=
  let k := 10 ^ Z.of_nat p in
  if 0 <=? e then Zpos m * 2 ^ e * k
  else round_half_even (Zpos m * k) (2 ^ (- e)).

(** The digits of [n / 10^p] in fixed notation with [p] decimals. *)
Definition fixed (p : nat) (n : Z) : string :=
  let k := 10 ^ Z.of_nat p in
  str_nat (n / k) ++
  match p with
  | O => ""
  | _ => "." ++ zfill p (str_nat (n mod k))
  end.

Definition sign (s : bool) : string := if s then "-" else "".

(** ASCII white space, as [str.isspace] sees it. *)
Definition isspace (c : ascii) : bool :=
  let n := N.to_nat (N_of_ascii c) in
  ((9 <=? n) && (n <=? 13) || (28 <=? n) && (n <=? 32))%nat.

Fixpoint lstrip (s : string) : string :=
  match s with
  | EmptyString => EmptyString
  | String a s' => if isspace a then lstrip s' else s
  end.

Fixpoint rstrip (s : string) : string :=
  match s with
  | EmptyString => EmptyString
  | String a s' =>
    match rstrip s' with
    | EmptyString => if isspace a then EmptyString else String a EmptyString
    | t => String a t
    end
  end.

(** [s.strip()] *)
Definition strip (s : string) : string := rstrip (lstrip s).

(** ["%.<p>f" % x] for a float [x]. *)
Definition format_f (p : nat) (x : float) : string :=
  match x with
  | S754_nan => "nan"
  | S754_infinity s => sign s ++ "inf"
  | S754_zero s => sign s ++ fixed p 0
  | S754_finite s m e => sign s ++ fixed p (scaled p m e)
  end.

End PyStr.
Import PyStr.

(** ** Python lists *)

Module PyList.

(** The position a Python index denotes: a negative index counts from the
    end, and an index outside the list is an [IndexError]. *)
Definition index {A} (l : list A) (i : Z) : result nat :=
  let n := Z.of_nat (List.length l) in
  let j := if i <? 0 then i + n else i in
  if (0 <=? j) && (j <? n) then Ok (Z.to_nat j) else Raise IndexError.

Fixpoint update {A} (l : list A) (k : nat) (v : A) : list A :=
  match l, k with
  | [], _ => []
  | _ :: t, O => v :: t
  | h :: t, S k' => h :: update t k' v
  end.

(** [l[i]] *)
Definition getitem {A} (l : list A) (i : Z) : result A :=
  bind_result (index l i) (fun k =>
  match nth_error l k with
  | Some a => Ok a
  | None => Raise IndexError
  end).

(** [l[i] = v], as the list it leaves. *)
Definition setitem {A} (l : list A) (i : Z) (v : A) : result (list A) :=
  bind_result (index l i) (fun k => Ok (update l k v)).

(** [x in t] for a tuple of ints, and for a value that may be [None]. *)
Definition mem (x : Z) (t : list Z) : bool := existsb (Z.eqb x) t.

Definition mem_opt (x : option Z) (t : list Z) : bool :=
  match x with
  | Some c => mem c t
  | None => false
  end.

Definition is_None {A} (x : option A) : bool :=
  match x with
  | None => true
  | Some _ => false
  end.

End PyList.
Import PyList.

(** ** The session and the serial port *)

(** What reaches the outside: bytes written to the port, and pauses. *)
Inductive event : Type :=
| Write (bytes : string)
| Sleep (seconds : float).

(** A [serial.Serial] object. *)
Record Serial : Type := {
  ser_port : string;
  baudrate : Z;
  bytesize : Z;
  parity : string;
  stopbits : Z;
  ser_timeout : Z;
  is_open : bool
}.

(** The fields of an [FY6600] object. *)
Record FY6600 : Type := {
  port : string;
  ser : option Serial;
  timeout : Z;
  channel_on : list bool;
  r_load : list num;
  v_out_coeff : list num
}.

(** The object together with the trace of the port, oldest event first. *)
Record world : Type := {
  self : FY6600;
  wire : list event
}.

Definition with_ser (d : FY6600) (p : option Serial) : FY6600 :=
  {| port := port d; ser := p; timeout := timeout d;
     channel_on := channel_on d; r_load := r_load d;
     v_out_coeff := v_out_coeff d |}.

Definition with_channel_on (d : FY6600) (l : list bool) : FY6600 :=
  {| port := port d; ser := ser d; timeout := timeout d;
     channel_on := l; r_load := r_load d; v_out_coeff := v_out_coeff d |}.

Definition with_r_load (d : FY6600) (l : list num) : FY6600 :=
  {| port := port d; ser := ser d; timeout := timeout d;
     channel_on := channel_on d; r_load := l; v_out_coeff := v_out_coeff d |}.

Definition with_v_out_coeff (d : FY6600) (l : list num) : FY6600 :=
  {| port := port d; ser := ser d; timeout := timeout d;
     channel_on := channel_on d; r_load := r_load d; v_out_coeff := l |}.

(** The world after the events [es] have happened on the port. *)
Definition sent (w : world) (es : list event) : world :=
  {| self := self w; wire := (wire w ++ es)%list |}.

(** ** Methods as state transformers that may raise *)

(** A method body: it returns a value or raises, and either way leaves a
    world behind (what was mutated before a raise stays mutated). *)
Definition M (A : Type) : Type := world -> result A * world.

Definition ret {A} (a : A) : M A := fun w => (Ok a, w).

Definition raise {A} (e : exn) : M A := fun w => (Raise e, w).

Definition bind {A B} (c : M A) (k : A -> M B) : M B :=
  fun w =>
    match c w with
    | (Ok a, w') => k a w'
    | (Raise e, w') => (Raise e, w')
    end.

Definition lift {A} (r : result A) : M A := fun w => (r, w).

Definition get_self : M FY6600 := fun w => (Ok (self w), w).

Definition modify_self (f : FY6600 -> FY6600) : M unit :=
  fun w => (Ok tt, {| self := f (self w); wire := wire w |}).

Definition emit (e : event) : M unit :=
  fun w => (Ok tt, sent w [e]).

Declare Scope py_scope.
Delimit Scope py_scope with py.
Notation "x <- c ;; k" := (bind c (fun x => k))
  (at level 61, c at next level, right associativity) : py_scope.
Notation "c ;; k" := (bind c (fun _ => k))
  (at level 61, right associativity) : py_scope.
Notation "'when' b 'then' c" := (if b then c else ret tt)
  (at level 60, b at level 9, c at next level) : py_scope.
Local Open Scope py_scope.

(** ** The driver *)

(** Port settings constants *)
Definition BAUD_RATE : Z := 115200.
Definition BITS : Z := 8.
Definition PARITY : string := "N".
Definition STOP_BITS : Z := 1.
Definition TIMEOUT : Z := 5.

(** A data packet ends with a single LF. *)
Definition EOL : string := String (ascii_of_nat 10) "".
(** Channels validation tuple *)
Definition CHANNELS : list Z := [0; 1; 2].
Definition CHANNELS_ERROR : string := "Channel can be 1 or 2.".
(** Delay between commands, in seconds. *)
Definition SLEEP_TIME : float := f0_5.
(** Output impedance of the AWG *)
Definition R_IN : float := f50.

Section Driver.

(** [constants.HI_Z] and [constants.WAVE_TYPES]: the constants module is
    not part of the sources, so both are left open. *)
Variable HI_Z : num.
Variable WAVE_TYPES : list Z.
(** The interpreter's [repr] of a float (shortest text that reads back as
    the same float), used by ["%s" % x]; left open. *)
Variable float_repr : float -> string.

(** ["%s" % x] for a number. *)
Definition str_num (x : num) : string :=
  match x with
  | PyInt n => str_int n
  | PyFloat f => float_repr f
  end.

(** [channel is not None and channel not in CHANNELS] *)
Definition bad_channel (channel : option Z) : bool :=
  negb (is_None channel) && negb (mem_opt channel CHANNELS).

(** [channel != v] *)
Definition differs (channel : option Z) (v : Z) : bool :=
  match channel with
  | Some c => negb (c =? v)
  | None => true
  end.

(** [channel - 1]; [None - 1] is a [TypeError]. *)
Definition minus_one (channel : option Z) : M Z :=
  match channel with
  | Some c => ret (c - 1)
  | None => raise TypeError
  end.

(** [baud_rate] is ignored; [log_debug] only switches debug printing. *)
Definition __init__ (port : string) (baud_rate : Z) (timeout : Z)
    (log_debug : bool) : FY6600 :=
  {| port := port;
     ser := None;
     timeout := timeout;
     channel_on := [false; false];
     r_load := [PyInt 50; PyInt 50];
     v_out_coeff := [PyInt 1; PyInt 1] |}.

Definition _connect : M unit :=
  modify_self (fun d =>
    with_ser d (Some {| ser_port := port d; baudrate := BAUD_RATE;
                        bytesize := BITS; parity := PARITY;
                        stopbits := STOP_BITS; ser_timeout := timeout d;
                        is_open := true |})).

(** [self.ser.close()] *)
Definition disconnect : M unit :=
  d <- get_self ;;
  match ser d with
  | None => raise AttributeError
  | Some p =>
    modify_self (fun d =>
      with_ser d (Some {| ser_port := ser_port p; baudrate := baudrate p;
                          bytesize := bytesize p; parity := parity p;
                          stopbits := stopbits p; ser_timeout := ser_timeout p;
                          is_open := false |}))
  end.

(** The command and the line end are ASCII, so encoding them gives one
    byte per character. Writing to an open port is taken to succeed; a
    port that was never opened is [None], and a closed one refuses. *)
Definition _send_command (cmd : string) : M unit :=
  let cmd := cmd ++ EOL in
  d <- get_self ;;
  match ser d with
  | None => raise AttributeError
  | Some p =>
    if is_open p then emit (Write cmd) ;; emit (Sleep SLEEP_TIME)
    else raise SerialException
  end.

(** [reply] is the decoded text the device answers, up to and including
    its CR LF. *)
Definition get_id (reply : string) : M string :=
  _send_command "UID" ;;
  let ans := reply in
  ret (strip ans).

Definition bit (b : bool) : string := if b then "1" else "0".

Definition enable_output (channel : option Z) (on : bool) : M unit :=
  if bad_channel channel then raise (UnknownChannelError CHANNELS_ERROR) else
  (if negb (is_None channel) && differs channel 0 then
     i <- minus_one channel ;;
     d <- get_self ;;
     l <- lift (setitem (channel_on d) i on) ;;
     modify_self (fun d => with_channel_on d l)
   else
     modify_self (fun d => with_channel_on d [on; on])) ;;
  d <- get_self ;;
  ch1 <- lift (getitem (channel_on d) 0) ;;
  d <- get_self ;;
  ch2 <- lift (getitem (channel_on d) 1) ;;
  (* The fy6600 uses separate commands to enable each channel. *)
  _send_command ("WMN" ++ bit ch1) ;;
  _send_command ("WFN" ++ bit ch2).

Definition initialize : M unit :=
  modify_self (fun d => with_channel_on d [false; false]) ;;
  _connect ;;
  enable_output None false.

Definition set_frequency (channel : option Z) (freq : num) : M unit :=
  if bad_channel channel then raise (UnknownChannelError CHANNELS_ERROR) else
  x <- lift (to_float freq) ;;
  let freq_str := format_f 2 x in
  let freq_str := remove_char "." freq_str in
  let freq_str := freq_str ++ "0000" in
  (* Channel 1 *)
  when (mem_opt channel [0; 1] || is_None channel) then
    _send_command ("WMF" ++ freq_str) ;;
  (* Channel 2 *)
  when (mem_opt channel [0; 2]) then
    _send_command ("WFF" ++ freq_str).

Definition set_phase (channel : option Z) (phase : num) : M unit :=
  phase <- (if ltb phase (PyInt 0) then lift (add phase (PyInt 360))
            else ret phase) ;;
  _send_command ("WFP" ++ str_num phase).

Definition set_wave_type (channel : option Z) (wave_type : Z) : M unit :=
  if bad_channel channel then raise (UnknownChannelError CHANNELS_ERROR) else
  if negb (mem wave_type WAVE_TYPES) then raise (ValueError "Incorrect wave type.") else
  (* Channel 1 *)
  when (mem_opt channel [0; 1] || is_None channel) then
    _send_command "WMW00" ;;
  (* Channel 2 *)
  when (mem_opt channel [0; 2] || is_None channel) then
    _send_command "WFW00".

Definition set_amplitude (channel : option Z) (amplitude : num) : M unit :=
  if bad_channel channel then raise (UnknownChannelError CHANNELS_ERROR) else
  i <- minus_one channel ;;
  d <- get_self ;;
  c <- lift (getitem (v_out_coeff d) i) ;;
  amplitude <- lift (truediv amplitude c) ;;
  x <- lift (to_float amplitude) ;;
  let amp_str := format_f 3 x in
  (* Channel 1 *)
  when (mem_opt channel [0; 1] || is_None channel) then
    _send_command ("WMA" ++ amp_str) ;;
  (* Channel 2 *)
  when (mem_opt channel [0; 2] || is_None channel) then
    _send_command ("WFA" ++ amp_str).

Definition set_offset (channel : option Z) (offset : num) : M unit :=
  if bad_channel channel then raise (UnknownChannelError CHANNELS_ERROR) else
  i <- minus_one channel ;;
  d <- get_self ;;
  c <- lift (getitem (v_out_coeff d) i) ;;
  offset <- lift (truediv offset c) ;;
  (* Channel 1 *)
  when (mem_opt channel [0; 1] || is_None channel) then
    _send_command ("WMO" ++ str_num offset) ;;
  (* Channel 2 *)
  when (mem_opt channel [0; 2] || is_None channel) then
    _send_command ("WFO" ++ str_num offset).

(** The divider: 1 for a Hi-Z load, else [z / (z + R_IN)]. *)
Definition divider (z : num) : result num :=
  if eqb z HI_Z then Ok (PyInt 1)
  else bind_result (add z (PyFloat R_IN)) (fun d => truediv z d).

Definition set_load_impedance (channel : option Z) (z : num) : M unit :=
  if bad_channel channel then raise (UnknownChannelError CHANNELS_ERROR) else
  i <- minus_one channel ;;
  d <- get_self ;;
  l <- lift (setitem (r_load d) i z) ;;
  modify_self (fun d => with_r_load d l) ;;
  v_out_coeff' <- lift (divider z) ;;
  i <- minus_one channel ;;
  d <- get_self ;;
  l <- lift (setitem (v_out_coeff d) i v_out_coeff') ;;
  modify_self (fun d => with_v_out_coeff d l).

End Driver.

(** ** Sessions in use *)

(** One call of a public method, with its arguments. *)
Inductive call : Type :=
| Initialize
| Disconnect
| GetId (reply : string)
| EnableOutput (channel : option Z) (on : bool)
| SetFrequency (channel : option Z) (freq : num)
| SetPhase (channel : option Z) (phase : num)
| SetWaveType (channel : option Z) (wave_type : Z)
| SetAmplitude (channel : option Z) (amplitude : num)
| SetOffset (channel : option Z) (offset : num)
| SetLoadImpedance (channel : option Z) (z : num).

Definition discard {A} (c : M A) : M unit := _ <- c ;; ret tt.

Section Sessions.

Variable HI_Z : num.
Variable WAVE_TYPES : list Z.
Variable float_repr : float -> string.

Definition run (c : call) : M unit :=
  match c with
  | Initialize => initialize
  | Disconnect => disconnect
  | GetId reply => discard (get_id reply)
  | EnableOutput channel on => enable_output channel on
  | SetFrequency channel freq => set_frequency channel freq
  | SetPhase channel phase => set_phase float_repr channel phase
  | SetWaveType channel wave_type => set_wave_type WAVE_TYPES channel wave_type
  | SetAmplitude channel amplitude => set_amplitude channel amplitude
  | SetOffset channel offset => set_offset float_repr channel offset
  | SetLoadImpedance channel z => set_load_impedance HI_Z channel z
  end.

(** The world a freshly constructed object lives in: nothing sent yet. *)
Definition fresh (port : string) (baud_rate timeout : Z) (log_debug : bool) : world :=
  {| self := __init__ port baud_rate timeout log_debug; wire := [] |}.

(** The worlds a session can be in: after construction, and after any
    call, whether it returned or raised. *)
Inductive reachable : world -> Prop :=
| reachable_fresh port baud_rate timeout log_debug :
    reachable (fresh port baud_rate timeout log_debug)
| reachable_call w c :
    reachable w -> reachable (snd (run c w)).

End Sessions.

(** The port is there and open. *)
Definition connected (w : world) : bool :=
  match ser (self w) with
  | Some p => is_open p
  | None => false
  end.

(** The three per-channel lists have one entry per channel. *)
Definition two_channels (d : FY6600) : Prop :=
  List.length (channel_on d) = 2%nat /\
  List.length (r_load d) = 2%nat /\
  List.length (v_out_coeff d) = 2%nat.


(** ** Notions used in the statements *)

(** What one command puts on the wire: the line, then the pause. *)
Definition command (cmd : string) : list event :=
  [Write (cmd ++ EOL); Sleep SLEEP_TIME].

(** [Q] holds of what the body [c] returns or raises, and of the world it
    leaves, when started in [w]. *)
Definition wp {A} (c : M A) (Q : result A -> world -> Prop) (w : world) : Prop :=
  Q (fst (c w)) (snd (c w)).

(** A property of the object alone that a method keeps, whether it
    returns or raises. *)
Definition keeps {A} (I : FY6600 -> Prop) (c : M A) : Prop :=
  forall w, I (self w) -> wp c (fun _ w' => I (self w')) w.

(** Properties of the two impedance lists alone. *)
Definition loads (P : list num -> list num -> Prop) (d : FY6600) : Prop :=
  P (r_load d) (v_out_coeff d).

(** Entry [k] of the coefficients is the divider of entry [k] of the
    loads. *)
Definition divided (HI_Z : num) (d : FY6600) (k : nat) : Prop :=
  exists z v,
    nth_error (r_load d) k = Some z /\
    nth_error (v_out_coeff d) k = Some v /\
    divider HI_Z z = Ok v.

(** Texts without a decimal point. *)
Definition undotted (s : string) : Prop := remove_char "." s = s.

(** The two-decimal rendering of a float with its point deleted: the
    sign, then the digits of the correctly rounded number of hundredths
    (at least three of them). Infinities and NaN have no digits. *)
Definition hundredths (x : float) : string :=
  match x with
  | S754_nan => "nan"
  | S754_infinity s => sign s ++ "inf"
  | S754_zero s => sign s ++ "000"
  | S754_finite s m e =>
    let n := scaled 2 m e in
    sign s ++ str_nat (n / 100) ++ zfill 2 (str_nat (n mod 100))
  end.

(** What [set_phase] sends for [phase]: 360 more when [phase < 0] (an
    integer sum for an int, a float sum for a float), the phase itself
    otherwise. *)
Definition shifted (phase : num) : num :=
  if ltb phase (PyInt 0) then
    match phase with
    | PyInt n => PyInt (n + 360)
    | PyFloat f => PyFloat (fadd f f360)
    end
  else phase.

(** [not (x < 0)] and [not (360 < x)] *)
Definition not_negative (x : num) : Prop := ltb x (PyInt 0) = false.
Definition at_most_360 (x : num) : Prop := ltb (PyInt 360) x = false.

(** Sample values for what the sources leave open, for closed examples:
    a Hi-Z sentinel of one megohm, four wave types, and a one-decimal
    rendering of floats in the place of [repr] (the examples only ever
    print integers). *)
Definition sample_HI_Z : num := PyInt 1000000.
Definition sample_WAVE_TYPES : list Z := [0; 1; 2; 3].
Definition sample_repr : float -> string := format_f 1.

(** A session that was constructed and initialized. *)
Definition bench : world :=
  snd (initialize (fresh "/dev/ttyUSB0" BAUD_RATE TIMEOUT false)).

(** * Properties *)

(** ** The float literals *)

Lemma literals :
  float_of_int 1 = Ok f1 /\ float_of_int 2 = Ok f2 /\
  float_of_int 50 = Ok f50 /\ float_of_int 150 = Ok f150 /\
  float_of_int 360 = Ok f360 /\
  int_truediv 1 2 = Ok f0_5 /\ int_truediv 3 4 = Ok f0_75.
Proof. repeat split; vm_compute; reflexivity. Qed.

(** ** Running method bodies *)

Lemma sent_sent w es1 es2 : sent (sent w es1) es2 = sent w (es1 ++ es2)%list.
Proof. unfold sent. simpl. rewrite app_assoc. reflexivity. Qed.

Lemma send_connected cmd w :
  connected w = true -> _send_command cmd w = (Ok tt, sent w (command cmd)).
Proof.
  unfold connected, _send_command, bind, get_self. intros H.
  destruct (ser (self w)) as [p|]; [|discriminate].
  rewrite H. unfold emit. simpl. rewrite sent_sent. reflexivity.
Qed.

Lemma send_unconnected cmd w :
  connected w = false -> exists e, _send_command cmd w = (Raise e, w).
Proof.
  unfold connected, _send_command, bind, get_self. intros H.
  destruct (ser (self w)) as [p|].
  - rewrite H. eexists. reflexivity.
  - eexists. reflexivity.
Qed.

(** Case analysis on a world whose port is known to be open: afterwards
    every method body computes. *)
Ltac open_port w Hc :=
  let o := fresh "o" in
  destruct w as [[? [[? ? ? ? ? ? o]|] ? ? ? ?] ?];
  cbn in Hc; [subst o | discriminate Hc].

(** Evaluate both sides, leaving the trace and the command texts as
    appends, and compare the traces up to the grouping of the appends. *)
Ltac evaluate :=
  cbv -[app append]; rewrite <- ?app_assoc; reflexivity.

(** ** What every method keeps *)

Lemma wp_bind {A B} (c : M A) (k : A -> M B) Q w :
  wp c (fun r w' => match r with
                    | Ok a => wp (k a) Q w'
                    | Raise e => Q (Raise e) w'
                    end) w ->
  wp (bind c k) Q w.
Proof.
  unfold wp, bind. destruct (c w) as [[a|e] w']; simpl; intros H; exact H.
Qed.

Lemma wp_weaken {A} (c : M A) (Q Q' : result A -> world -> Prop) w :
  (forall r w', Q r w' -> Q' r w') -> wp c Q w -> wp c Q' w.
Proof. unfold wp. intros H. apply H. Qed.

Lemma keeps_ret {A} I (a : A) : keeps I (ret a).
Proof. intros w H. exact H. Qed.

Lemma keeps_raise {A} I e : keeps I (@raise A e).
Proof. intros w H. exact H. Qed.

Lemma keeps_lift {A} I (r : result A) : keeps I (lift r).
Proof. intros w H. exact H. Qed.

Lemma keeps_get_self I : keeps I get_self.
Proof. intros w H. exact H. Qed.

Lemma keeps_bind {A B} I (c : M A) (k : A -> M B) :
  keeps I c -> (forall a, keeps I (k a)) -> keeps I (bind c k).
Proof.
  intros Hc Hk w H. apply wp_bind. eapply wp_weaken; [|apply Hc, H].
  intros [a|e] w' H'; [apply Hk, H' | exact H'].
Qed.

Lemma keeps_when {A} I (b : bool) (c c' : M A) :
  keeps I c -> keeps I c' -> keeps I (if b then c else c').
Proof. destruct b; auto. Qed.

Lemma keeps_send I cmd : keeps I (_send_command cmd).
Proof.
  intros w H. unfold wp, _send_command, bind, get_self.
  destruct (ser (self w)) as [p|]; [|exact H].
  destruct (is_open p); exact H.
Qed.

Lemma keeps_minus_one I channel : keeps I (minus_one channel).
Proof. destruct channel; [apply keeps_ret | apply keeps_raise]. Qed.

Create HintDb keeps.

#[local] Hint Resolve keeps_ret keeps_raise keeps_lift keeps_get_self
  keeps_send keeps_minus_one : keeps.

Ltac keeps_steps :=
  repeat first
    [ solve [auto with keeps]
    | apply keeps_when
    | apply keeps_bind; [|intros ?] ].

(** ** Every list keeps its two entries *)

Lemma length_update {A} (l : list A) k v :
  List.length (update l k v) = List.length l.
Proof.
  revert k. induction l as [|h t IH]; intros [|k]; simpl; auto.
Qed.

Lemma length_setitem {A} (l l' : list A) i v :
  setitem l i v = Ok l' -> List.length l' = List.length l.
Proof.
  unfold setitem. destruct (index l i); simpl; [|discriminate].
  intros H. injection H as <-. apply length_update.
Qed.

Lemma keeps_set_channel_on (l : list bool) :
  List.length l = 2%nat -> keeps two_channels (modify_self (fun d => with_channel_on d l)).
Proof. intros Hl w (_ & H2 & H3). repeat split; assumption. Qed.

Lemma keeps_setitem_channel_on i on :
  keeps two_channels
    (d <- get_self ;;
     l <- lift (setitem (channel_on d) i on) ;;
     modify_self (fun d => with_channel_on d l)).
Proof.
  intros w H. unfold wp, bind, get_self, lift.
  destruct (setitem (channel_on (self w)) i on) as [l|e] eqn:E; [|exact H].
  apply length_setitem in E. destruct H as (H1 & H2 & H3).
  repeat split; simpl; congruence.
Qed.

#[local] Hint Resolve keeps_setitem_channel_on : keeps.

Lemma keeps_enable_output channel on :
  keeps two_channels (enable_output channel on).
Proof.
  unfold enable_output.
  apply keeps_when; [auto with keeps|].
  apply keeps_bind.
  - apply keeps_when.
    + apply keeps_bind; [auto with keeps|intros i]. auto with keeps.
    + apply keeps_set_channel_on. reflexivity.
  - intros _. keeps_steps.
Qed.

Lemma keeps_connect : keeps two_channels _connect.
Proof. intros w H. exact H. Qed.

Lemma keeps_initialize : keeps two_channels initialize.
Proof.
  unfold initialize. apply keeps_bind.
  - apply keeps_set_channel_on. reflexivity.
  - intros _. apply keeps_bind; [apply keeps_connect|intros _].
    apply keeps_enable_output.
Qed.

Lemma keeps_disconnect : keeps two_channels disconnect.
Proof.
  intros w H. unfold wp, disconnect, bind, get_self.
  destruct (ser (self w)); exact H.
Qed.

Section Keeps.

Variable HI_Z : num.
Variable WAVE_TYPES : list Z.
Variable float_repr : float -> string.

Lemma keeps_set_load_impedance channel z :
  keeps two_channels (set_load_impedance HI_Z channel z).
Proof.
  intros w (H1 & H2 & H3).
  unfold wp, set_load_impedance, bind, get_self, lift, modify_self, minus_one,
    raise, ret.
  destruct (bad_channel channel); [repeat split; assumption|].
  destruct channel as [c|]; [|repeat split; assumption].
  destruct (setitem (r_load (self w)) (c - 1) z) as [l|e] eqn:E1;
    [|repeat split; assumption].
  apply length_setitem in E1. cbn [self r_load v_out_coeff with_r_load].
  destruct (divider HI_Z z) as [v|e]; [|repeat split; simpl; congruence].
  destruct (setitem (v_out_coeff (self w)) (c - 1) v) as [l'|e] eqn:E2;
    [|repeat split; simpl; congruence].
  apply length_setitem in E2. repeat split; simpl; congruence.
Qed.

Lemma keeps_run c : keeps two_channels (run HI_Z WAVE_TYPES float_repr c).
Proof.
  destruct c; cbn [run].
  - apply keeps_initialize.
  - apply keeps_disconnect.
  - unfold discard, get_id. keeps_steps.
  - apply keeps_enable_output.
  - unfold set_frequency. keeps_steps.
  - unfold set_phase. keeps_steps.
  - unfold set_wave_type. keeps_steps.
  - unfold set_amplitude. keeps_steps.
  - unfold set_offset. keeps_steps.
  - apply keeps_set_load_impedance.
Qed.

(** In every reachable world each per-channel list has two entries. *)
Lemma reachable_two_channels w :
  reachable HI_Z WAVE_TYPES float_repr w -> two_channels (self w).
Proof.
  induction 1 as [| w c _ IH].
  - repeat split.
  - apply (keeps_run c w IH).
Qed.

Lemma reachable_flags w :
  reachable HI_Z WAVE_TYPES float_repr w ->
  exists b1 b2, channel_on (self w) = [b1; b2].
Proof.
  intros H. destruct (reachable_two_channels w H) as (H1 & _).
  destruct (channel_on (self w)) as [|b1 [|b2 [|]]]; try discriminate.
  exists b1, b2. reflexivity.
Qed.

End Keeps.

Lemma two_lists d :
  two_channels d ->
  exists z1 z2 c1 c2, r_load d = [z1; z2] /\ v_out_coeff d = [c1; c2].
Proof.
  intros (_ & Hr & Hv).
  destruct (r_load d) as [|z1 [|z2 [|]]]; try discriminate.
  destruct (v_out_coeff d) as [|c1 [|c2 [|]]]; try discriminate.
  exists z1, z2, c1, c2. split; reflexivity.
Qed.

(** ** The bench session *)

Lemma bench_connected : connected bench = true.
Proof. reflexivity. Qed.

Lemma bench_reachable :
  reachable sample_HI_Z sample_WAVE_TYPES sample_repr bench.
Proof.
  apply (reachable_call sample_HI_Z sample_WAVE_TYPES sample_repr _ Initialize).
  apply reachable_fresh.
Qed.

(** ** Channel validation *)

Lemma bad_channel_outside (ch : Z) :
  ch <> 0 -> ch <> 1 -> ch <> 2 -> bad_channel (Some ch) = true.
Proof.
  intros H0 H1 H2. unfold bad_channel, mem_opt, mem, CHANNELS. simpl.
  apply Z.eqb_neq in H0, H1, H2. rewrite H0, H1, H2. reflexivity.
Qed.

Lemma bad_channel_valid (ch : Z) :
  ch = 0 \/ ch = 1 \/ ch = 2 -> bad_channel (Some ch) = false.
Proof. intros [->|[->| ->]]; reflexivity. Qed.

(** C3 (amended). For a channel argument outside {0, 1, 2} (and not
    None), each of [enable_output], [set_frequency], [set_wave_type],
    [set_amplitude], [set_offset] and [set_load_impedance] raises
    [UnknownChannelError] with the fixed message and leaves the world as
    it was: nothing is written and no field changes. ([set_phase] is not
    among them: it never looks at its channel argument.) *)
Theorem unknown_channel_rejected
    (HI_Z : num) (WAVE_TYPES : list Z) (float_repr : float -> string)
    (ch : Z) (on : bool) (freq amplitude offset z : num) (wave_type : Z)
    (w : world) :
  ch <> 0 -> ch <> 1 -> ch <> 2 ->
  let refused := (Raise (UnknownChannelError "Channel can be 1 or 2."), w) in
  enable_output (Some ch) on w = refused /\
  set_frequency (Some ch) freq w = refused /\
  set_wave_type WAVE_TYPES (Some ch) wave_type w = refused /\
  set_amplitude (Some ch) amplitude w = refused /\
  set_offset float_repr (Some ch) offset w = refused /\
  set_load_impedance HI_Z (Some ch) z w = refused.
Proof.
  intros H0 H1 H2.
  pose proof (bad_channel_outside ch H0 H1 H2) as Hbad.
  unfold enable_output, set_frequency, set_wave_type, set_amplitude,
    set_offset, set_load_impedance.
  rewrite Hbad. repeat split.
Qed.

Lemma unknown_channel_rejected_witness :
  set_load_impedance sample_HI_Z (Some 3) (PyFloat f50) bench =
    (Raise (UnknownChannelError "Channel can be 1 or 2."), bench) /\
  set_amplitude (Some (-1)) (PyFloat f1) bench =
    (Raise (UnknownChannelError "Channel can be 1 or 2."), bench).
Proof.
  split.
  - apply (unknown_channel_rejected sample_HI_Z sample_WAVE_TYPES sample_repr
             3 true (PyInt 0) (PyInt 0) (PyInt 0) (PyFloat f50) 0 bench); lia.
  - apply (unknown_channel_rejected sample_HI_Z sample_WAVE_TYPES sample_repr
             (-1) true (PyInt 0) (PyFloat f1) (PyInt 0) (PyInt 0) 0 bench); lia.
Defined.

(** C3, as stated, fails on [set_phase]: with channel argument 7 it
    returns normally and writes its command to the port. *)
Lemma set_phase_accepts_any_channel :
  let (r, w') := set_phase sample_repr (Some 7) (PyInt 10) bench in
  r = Ok tt /\
  r <> Raise (UnknownChannelError CHANNELS_ERROR) /\
  wire w' = (wire bench ++ [Write ("WFP10" ++ EOL); Sleep SLEEP_TIME])%list.
Proof. vm_compute. repeat split. discriminate. Qed.

(** ** Enabling and disabling outputs *)

(** C9. [enable_output(0, True)] on an open port returns normally, puts
    exactly two writes on the wire -- the channel-1 command [WMN1] and the
    channel-2 command [WFN1], each followed by the [SLEEP_TIME] pause --
    and leaves both enabled flags true. *)
Theorem enable_output_both_on (w : world) :
  connected w = true ->
  let (r, w') := enable_output (Some 0) true w in
  r = Ok tt /\
  wire w' = (wire w ++ [Write ("WMN1" ++ EOL); Sleep SLEEP_TIME;
                        Write ("WFN1" ++ EOL); Sleep SLEEP_TIME])%list /\
  channel_on (self w') = [true; true].
Proof.
  intros Hc. open_port w Hc.
  cbv -[app append]. rewrite <- ?app_assoc. repeat split.
Qed.

Lemma enable_output_both_on_witness :
  let (r, w') := enable_output (Some 0) true bench in
  r = Ok tt /\
  wire w' = (wire bench ++ [Write ("WMN1" ++ EOL); Sleep SLEEP_TIME;
                            Write ("WFN1" ++ EOL); Sleep SLEEP_TIME])%list /\
  channel_on (self w') = [true; true].
Proof. apply (enable_output_both_on bench). reflexivity. Defined.

(** C10. For a single channel [c] (1 or 2), [enable_output(c, on)] on an
    open port stores [on] for that channel only, the other channel's flag
    stays as it was, and it still sends both commands: the addressed
    channel's with the new state, the other channel's with the state that
    was already stored. *)
Theorem enable_output_single (c : Z) (on b1 b2 : bool) (w : world) :
  c = 1 \/ c = 2 ->
  connected w = true ->
  channel_on (self w) = [b1; b2] ->
  let ch1 := if c =? 1 then on else b1 in
  let ch2 := if c =? 2 then on else b2 in
  let (r, w') := enable_output (Some c) on w in
  r = Ok tt /\
  channel_on (self w') = [ch1; ch2] /\
  wire w' = (wire w ++ [Write ("WMN" ++ bit ch1 ++ EOL); Sleep SLEEP_TIME;
                        Write ("WFN" ++ bit ch2 ++ EOL); Sleep SLEEP_TIME])%list.
Proof.
  intros Hch Hc Hl. open_port w Hc. cbn in Hl. subst.
  destruct Hch; subst c; cbv -[app append]; rewrite <- ?app_assoc; repeat split.
Qed.

Lemma enable_output_single_witness :
  let (r, w') := enable_output (Some 2) true bench in
  r = Ok tt /\
  channel_on (self w') = [false; true] /\
  wire w' = (wire bench ++ [Write ("WMN" ++ "0" ++ EOL); Sleep SLEEP_TIME;
                            Write ("WFN" ++ "1" ++ EOL); Sleep SLEEP_TIME])%list.
Proof.
  apply (enable_output_single 2 true false false bench);
    [right; reflexivity | reflexivity | reflexivity].
Defined.

(** ** Frequency *)

Lemma remove_char_app c a b :
  remove_char c (a ++ b) = remove_char c a ++ remove_char c b.
Proof.
  induction a as [|x a IH]; simpl; [reflexivity|].
  destruct (Ascii.eqb x c); simpl; rewrite IH; reflexivity.
Qed.

Lemma undotted_app a b : undotted a -> undotted b -> undotted (a ++ b).
Proof. unfold undotted. intros Ha Hb. rewrite remove_char_app, Ha, Hb. reflexivity. Qed.

Lemma undotted_uint u : undotted (NilEmpty.string_of_uint u).
Proof.
  unfold undotted. induction u; simpl; try rewrite IHu; reflexivity.
Qed.

Lemma undotted_str_nat n : undotted (str_nat n).
Proof.
  unfold str_nat, NilZero.string_of_uint.
  destruct (N.to_uint (Z.to_N n)) eqn:E; try (rewrite <- E; apply undotted_uint).
  reflexivity.
Qed.

Lemma undotted_zeros k : undotted (zeros k).
Proof. unfold undotted. induction k; simpl; try rewrite IHk; reflexivity. Qed.

Lemma undotted_zfill k s : undotted s -> undotted (zfill k s).
Proof. intros H. apply undotted_app; [apply undotted_zeros | exact H]. Qed.

Lemma undotted_sign s : undotted (sign s).
Proof. destruct s; reflexivity. Qed.

(** Deleting the point of a fixed-notation text leaves the integral
    digits followed by the decimals. *)
Lemma remove_point_fixed p n :
  remove_char "." (fixed (S p) n) =
  str_nat (n / 10 ^ Z.of_nat (S p)) ++
  zfill (S p) (str_nat (n mod 10 ^ Z.of_nat (S p))).
Proof.
  unfold fixed. cbv zeta. rewrite remove_char_app.
  rewrite (undotted_str_nat (n / 10 ^ Z.of_nat (S p))). f_equal.
  transitivity (remove_char "." (zfill (S p) (str_nat (n mod 10 ^ Z.of_nat (S p))))).
  - reflexivity.
  - apply undotted_zfill, undotted_str_nat.
Qed.

Lemma remove_point_format_f x :
  remove_char "." (format_f 2 x) = hundredths x.
Proof.
  destruct x as [s|s| |s m e]; cbn [format_f hundredths].
  - destruct s; reflexivity.
  - destruct s; reflexivity.
  - reflexivity.
  - rewrite remove_char_app, (undotted_sign s), remove_point_fixed. reflexivity.
Qed.

(** C6. For a valid channel argument and a frequency [freq] (whose float
    value is [x]), [set_frequency] on an open port builds its payload by
    formatting [x] with two decimals, deleting the decimal point and
    appending four zeros -- which leaves the digits of the rounded
    hundredths followed by [0000] -- and sends it as [WMF] for channel 1,
    [WFF] for channel 2, or both for channel argument 0. For 1.0 the
    payload is [1000000]. *)
Theorem set_frequency_payload (ch : Z) (freq : num) (x : float) (w : world) :
  ch = 0 \/ ch = 1 \/ ch = 2 ->
  connected w = true ->
  to_float freq = Ok x ->
  let payload := remove_char "." (format_f 2 x) ++ "0000" in
  set_frequency (Some ch) freq w =
    (Ok tt,
     sent w ((if (ch =? 0) || (ch =? 1)
              then [Write ("WMF" ++ payload ++ EOL); Sleep SLEEP_TIME] else []) ++
             (if (ch =? 0) || (ch =? 2)
              then [Write ("WFF" ++ payload ++ EOL); Sleep SLEEP_TIME] else []))%list) /\
  payload = hundredths x ++ "0000" /\
  set_frequency (Some 1) (PyFloat f1) w =
    (Ok tt, sent w [Write ("WMF" ++ "1000000" ++ EOL); Sleep SLEEP_TIME]).
Proof.
  intros Hch Hc Hx payload. repeat split.
  - unfold set_frequency. rewrite (bad_channel_valid ch Hch).
    unfold bind at 1. unfold lift at 1. rewrite Hx.
    fold payload. open_port w Hc.
    destruct Hch as [->|[->| ->]];
      cbv -[app append payload]; rewrite <- ?app_assoc; reflexivity.
  - unfold payload. rewrite remove_point_format_f. reflexivity.
  - open_port w Hc. evaluate.
Qed.

Lemma set_frequency_payload_witness :
  set_frequency (Some 0) (PyInt 1000) bench =
    (Ok tt, sent bench [Write ("WMF" ++ "1000000000" ++ EOL); Sleep SLEEP_TIME;
                        Write ("WFF" ++ "1000000000" ++ EOL); Sleep SLEEP_TIME]).
Proof.
  refine (proj1 (set_frequency_payload 0 (PyInt 1000)
                   (S754_finite false 8796093022208000 (-43)) bench _ _ _));
    [left; reflexivity | reflexivity | vm_compute; reflexivity].
Defined.

(** ** Phase *)

Lemma add_360 phase :
  add phase (PyInt 360) =
  Ok match phase with
     | PyInt n => PyInt (n + 360)
     | PyFloat f => PyFloat (fadd f f360)
     end.
Proof. destruct phase; reflexivity. Qed.

Lemma shifted_int_range n :
  -360 <= n < 360 -> exists k, shifted (PyInt n) = PyInt k /\ 0 <= k < 360.
Proof.
  intros Hn. unfold shifted, ltb, compare.
  destruct (Z.compare_spec n 0) as [->|Hlt|Hgt].
  - exists 0. split; [reflexivity|lia].
  - exists (n + 360). split; [reflexivity|lia].
  - exists n. split; [reflexivity|lia].
Qed.

(** The sign of a rounded result is the sign that went in. *)
Lemma binary_round_aux_sign sx mx ex lx :
  match binary_round_aux prec emax sx mx ex lx with
  | S754_zero s | S754_infinity s | S754_finite s _ _ => s = sx
  | S754_nan => True
  end.
Proof.
  unfold binary_round_aux.
  destruct (shr_fexp prec emax mx ex lx) as [mrs' e'].
  destruct (shr_fexp prec emax _ e' loc_Exact) as [mrs'' e''].
  destruct (shr_m mrs''); [reflexivity| |exact I].
  destruct (e'' <=? emax - prec); reflexivity.
Qed.

Lemma binary_round_sign sx mx ex :
  match binary_round prec emax sx mx ex with
  | S754_zero s | S754_infinity s | S754_finite s _ _ => s = sx
  | S754_nan => True
  end.
Proof.
  unfold binary_round. destruct (shl_align mx ex _) as [mz ez].
  apply binary_round_aux_sign.
Qed.

Lemma positive_sign_not_negative (r : float) :
  match r with
  | S754_zero s | S754_infinity s | S754_finite s _ _ => s = false
  | S754_nan => True
  end -> not_negative (PyFloat r).
Proof.
  unfold not_negative, ltb, compare, compare_float_int.
  destruct r as [s|s| |s m e]; intros H; subst; try reflexivity.
  destruct (0 <=? e) eqn:He; cbn [signed].
  - apply Z.leb_le in He.
    assert (0 < Z.pos m * 2 ^ e) by (apply Z.mul_pos_pos; [lia | apply Z.pow_pos_nonneg; lia]).
    destruct (Z.compare_spec (Z.pos m * 2 ^ e) 0); try lia; reflexivity.
  - reflexivity.
Qed.

(** Aligning a mantissa to a smaller exponent multiplies it by a power
    of two. *)
Lemma iter_xO m d : Zpos (Pos.iter xO m d) = Zpos m * 2 ^ Zpos d.
Proof.
  rewrite (Pos.iter_swap_gen _ _ Zpos xO (Z.mul 2)) by reflexivity.
  change (Pos.iter (Z.mul 2) (Z.pos m) d) with (Z.shiftl (Z.pos m) (Z.pos d)).
  apply Z.shiftl_mul_pow2. lia.
Qed.

Lemma shl_align_value mx ex ex' :
  ex' <= ex -> Zpos (fst (shl_align mx ex ex')) = Zpos mx * 2 ^ (ex - ex').
Proof.
  intros H. unfold shl_align.
  destruct (ex' - ex) as [|d|d] eqn:E; cbn [fst].
  - replace (ex - ex') with 0 by lia. lia.
  - lia.
  - rewrite iter_xO. f_equal. f_equal. lia.
Qed.

(** A negative float that is not below -360 plus 360.0 is not negative:
    the exact sum is not, and rounding keeps the sign. *)
Lemma fadd_360_not_negative m e :
  ltb (PyFloat (S754_finite true m e)) (PyInt (-360)) = false ->
  not_negative (PyFloat (fadd (S754_finite true m e) f360)).
Proof.
  intros H. apply positive_sign_not_negative.
  unfold fadd, f360, SFadd, binary_normalize.
  set (ez := Z.min e (-44)).
  assert (Hs : 0 <= cond_Zopp true (Z.pos (fst (shl_align m e ez))) +
                    cond_Zopp false (Z.pos (fst (shl_align 6333186975989760 (-44) ez)))).
  { cbn [cond_Zopp]. rewrite !shl_align_value by (unfold ez; lia).
    unfold ltb, compare, compare_float_int in H. cbn [signed] in H.
    destruct (0 <=? e) eqn:He.
    - apply Z.leb_le in He.
      destruct (Z.compare_spec (Z.neg m * 2 ^ e) (-360)) as [E|E|E]; try discriminate.
      + replace ez with (-44) by (unfold ez; lia).
        replace (-44 - -44) with 0 by lia.
        replace (e - -44) with (e + 44) by lia. rewrite Z.pow_add_r by lia. 
        change (Z.neg m) with (- Z.pos m) in E. change (2^0) with 1. change (2 ^ 44) with 17592186044416. lia.
      + replace ez with (-44) by (unfold ez; lia).
        replace (-44 - -44) with 0 by lia.
        replace (e - -44) with (e + 44) by lia. rewrite Z.pow_add_r by lia. 
        change (Z.neg m) with (- Z.pos m) in E. change (2^0) with 1. change (2 ^ 44) with 17592186044416. lia.
    - apply Z.leb_gt in He.
      assert (Hm : Z.pos m <= 360 * 2 ^ (- e)).
      { destruct (Z.compare_spec (Z.neg m) (-360 * 2 ^ (- e))) as [E|E|E]; try discriminate;
        change (Z.neg m) with (- Z.pos m) in E; lia. }
      clear H.
      destruct (Z.le_ge_cases e (-44)) as [L|L].
      + replace ez with e by (unfold ez; lia).
        replace (e - e) with 0 by lia. replace (-44 - e) with (-e - 44) by lia.
        assert (2 ^ (- e) = 2 ^ (- e - 44) * 2 ^ 44) by (rewrite <- Z.pow_add_r by lia; f_equal; lia).
        change (2 ^ 44) with 17592186044416 in *. change (2^0) with 1. nia.
      + replace ez with (-44) by (unfold ez; lia).
        replace (-44 - -44) with 0 by lia. replace (e - -44) with (e + 44) by lia.
        assert (2 ^ 44 = 2 ^ (e + 44) * 2 ^ (- e)) by (rewrite <- Z.pow_add_r by lia; f_equal; lia).
        assert (0 < 2 ^ (- e)) by (apply Z.pow_pos_nonneg; lia).
        assert (0 < 2 ^ (e + 44)) by (apply Z.pow_pos_nonneg; lia).
        change (2 ^ 44) with 17592186044416 in *. change (2^0) with 1. nia. }
  destruct (_ + _) as [|p|p] in Hs |- *.
  - reflexivity.
  - apply binary_round_sign.
  - lia.
Qed.

Lemma shifted_not_negative phase :
  ltb phase (PyInt (-360)) = false -> not_negative (shifted phase).
Proof.
  intros H. unfold shifted.
  destruct (ltb phase (PyInt 0)) eqn:Hneg; [|exact Hneg].
  destruct phase as [n|f].
  - unfold not_negative, ltb, compare in *.
    destruct (Z.compare_spec n (-360)); try discriminate;
      destruct (Z.compare_spec (n + 360) 0); try reflexivity; lia.
  - destruct f as [s|s| |s m e]; try discriminate Hneg.
    + destruct s; discriminate.
    + destruct s.
      * apply fadd_360_not_negative, H.
      * pose proof (positive_sign_not_negative (S754_finite false m e) eq_refl) as P.
        unfold not_negative in P. congruence.
Qed.

(** A number below [2^k] has at most [k] binary digits. *)
Lemma digits2_pos_bound p k : Z.pos p < 2 ^ k -> 0 <= k -> Z.pos (digits2_pos p) <= k.
Proof.
  revert k. induction p as [p IH|p IH|]; intros k Hp Hk; cbn [digits2_pos].
  - destruct (Z.eq_dec k 0) as [->|Hk0]; [cbn in Hp; lia|].
    assert (E : 2 ^ k = 2 * 2 ^ (k - 1)) by (rewrite <- Z.pow_succ_r by lia; f_equal; lia).
    rewrite Pos2Z.inj_succ. specialize (IH (k - 1)). lia.
  - destruct (Z.eq_dec k 0) as [->|Hk0]; [cbn in Hp; lia|].
    assert (E : 2 ^ k = 2 * 2 ^ (k - 1)) by (rewrite <- Z.pow_succ_r by lia; f_equal; lia).
    rewrite Pos2Z.inj_succ. specialize (IH (k - 1)). lia.
  - destruct (Z.eq_dec k 0) as [->|Hk0]; [cbn in Hp; lia|]. lia.
Qed.

Lemma Zdigits2_bound m k : 0 <= m < 2 ^ k -> 0 <= k -> Zdigits2 m <= k.
Proof.
  intros [H0 H1] Hk. destruct m as [|p|p]; cbn [Zdigits2]; [lia| |lia].
  apply digits2_pos_bound; assumption.
Qed.

(** Shifting a rounding record right halves its mantissa. *)
Lemma shr_1_m mrs : 0 <= shr_m mrs -> shr_m (shr_1 mrs) = shr_m mrs / 2.
Proof.
  destruct mrs as [m r s]. cbn [shr_m]. intros H.
  destruct m as [|[p|p|]|p]; cbn [shr_1 shr_m]; try lia; try reflexivity.
  - rewrite Pos2Z.inj_xI. apply (Z.div_unique _ 2 _ 1); lia.
  - rewrite Pos2Z.inj_xO. apply (Z.div_unique _ 2 _ 0); lia.
Qed.

Lemma pow2_xO p : 2 ^ Z.pos p~0 = 2 ^ Z.pos p * 2 ^ Z.pos p.
Proof. rewrite <- Z.pow_add_r by lia. f_equal. lia. Qed.

Lemma pow2_xI p : 2 ^ Z.pos p~1 = 2 * 2 ^ Z.pos p * 2 ^ Z.pos p.
Proof.
  replace (Z.pos p~1) with (Z.succ (Z.pos p~0)) by lia.
  rewrite Z.pow_succ_r, pow2_xO by lia. ring.
Qed.

Lemma shr_m_iter p : forall mrs,
  0 <= shr_m mrs -> shr_m (iter_pos shr_1 p mrs) = shr_m mrs / 2 ^ Z.pos p.
Proof.
  assert (Hpow : forall q, 0 < 2 ^ Z.pos q) by (intros; apply Z.pow_pos_nonneg; lia).
  induction p as [p IH|p IH|]; intros mrs H; cbn [iter_pos].
  - assert (H1 : 0 <= shr_m (shr_1 mrs)).
    { rewrite shr_1_m by assumption. apply Z.div_pos; lia. }
    assert (H2 : 0 <= shr_m (iter_pos shr_1 p (shr_1 mrs))).
    { rewrite IH by assumption. apply Z.div_pos; [assumption|apply Hpow]. }
    rewrite IH, IH, shr_1_m by assumption.
    rewrite !Z.div_div by (try apply Hpow; lia).
    rewrite pow2_xI. f_equal. ring.
  - assert (H2 : 0 <= shr_m (iter_pos shr_1 p mrs)).
    { rewrite IH by assumption. apply Z.div_pos; [assumption|apply Hpow]. }
    rewrite IH, IH by assumption.
    rewrite !Z.div_div by (try apply Hpow; lia).
    rewrite pow2_xO. f_equal.
  - rewrite shr_1_m by assumption. reflexivity.
Qed.

Lemma fexp_small d : d <= 9 -> fexp prec emax d <= -44.
Proof. unfold fexp, emin, prec, emax. lia. Qed.

Lemma below_512 m e : 0 <= m <= 360 * 2 ^ (- e) -> e <= -44 -> Zdigits2 m + e <= 9.
Proof.
  intros [H0 H1] He.
  assert (Hp : 0 < 2 ^ (- e)) by (apply Z.pow_pos_nonneg; lia).
  assert (Zdigits2 m <= 9 - e); [|lia].
  apply Zdigits2_bound; [|lia]. split; [assumption|].
  replace (9 - e) with (9 + - e) by lia. rewrite Z.pow_add_r by lia.
  change (2 ^ 9) with 512. lia.
Qed.

Lemma shr_m_of_loc m l : shr_m (shr_record_of_loc m l) = m.
Proof. destruct l as [|[]]; reflexivity. Qed.

(** One rounding shift keeps a mantissa below 360 in units of its
    exponent, and the exponent at or below -44. *)
Lemma shr_fexp_below (strict : bool) mx ex lx :
  0 <= mx -> (if strict then mx < 360 * 2 ^ (- ex) else mx <= 360 * 2 ^ (- ex)) ->
  ex <= -44 ->
  let '(mrs, e') := shr_fexp prec emax mx ex lx in
  e' <= -44 /\ 0 <= shr_m mrs /\
  (if strict then shr_m mrs < 360 * 2 ^ (- e') else shr_m mrs <= 360 * 2 ^ (- e')).
Proof.
  intros H0 H1 He. unfold shr_fexp, shr.
  assert (Hle : mx <= 360 * 2 ^ (- ex)) by (destruct strict; lia).
  pose proof (fexp_small _ (below_512 mx ex (conj H0 Hle) He)) as Hf.
  destruct (fexp prec emax (Zdigits2 mx + ex) - ex) as [|p|p] eqn:E;
    try (rewrite shr_m_of_loc; repeat split; assumption).
  rewrite shr_m_iter by (rewrite shr_m_of_loc; assumption).
  rewrite shr_m_of_loc.
  assert (Hp : 0 < 2 ^ Z.pos p) by (apply Z.pow_pos_nonneg; lia).
  assert (Hs : 2 ^ (- ex) = 2 ^ Z.pos p * 2 ^ (- (ex + Z.pos p))).
  { rewrite <- Z.pow_add_r by lia. f_equal. lia. }
  split; [lia|]. split; [apply Z.div_pos; lia|].
  destruct strict.
  - apply Z.div_lt_upper_bound; [assumption|]. rewrite Hs in H1. lia.
  - apply Z.div_le_upper_bound; [assumption|]. rewrite Hs in H1. lia.
Qed.

Lemma round_nearest_even_step m l :
  m <= round_nearest_even m l <= m + 1.
Proof.
  unfold round_nearest_even. destruct l as [|[]]; try lia.
  destruct (Z.even m); lia.
Qed.

(** Rounding what is below 360 gives at most 360: 360 is a multiple of
    the unit in the last place there. *)
Lemma binary_round_aux_below mx ex lx :
  0 <= mx < 360 * 2 ^ (- ex) -> ex <= -44 ->
  at_most_360 (PyFloat (binary_round_aux prec emax false mx ex lx)).
Proof.
  intros [H0 H1] He. unfold binary_round_aux.
  pose proof (shr_fexp_below true mx ex lx H0 H1 He) as S1.
  destruct (shr_fexp prec emax mx ex lx) as [mrs' e'].
  destruct S1 as (He' & Hm0 & Hm1).
  pose proof (round_nearest_even_step (shr_m mrs') (loc_of_shr_record mrs')) as R.
  set (m2 := round_nearest_even (shr_m mrs') (loc_of_shr_record mrs')) in *.
  assert (S2 := shr_fexp_below false m2 e' loc_Exact ltac:(lia) ltac:(cbv beta iota; lia) He').
  destruct (shr_fexp prec emax m2 e' loc_Exact) as [mrs'' e''].
  destruct S2 as (He'' & Hn0 & Hn1).
  destruct (shr_m mrs'') as [|m|m] eqn:Em; try reflexivity.
  replace (e'' <=? emax - prec) with true by (symmetry; apply Z.leb_le; unfold emax, prec; lia).
  unfold at_most_360, ltb, compare, compare_float_int.
  replace (0 <=? e'') with false by (symmetry; apply Z.leb_gt; lia).
  cbn [signed option_map].
  destruct (Z.compare_spec (Z.pos m) (360 * 2 ^ (- e''))); try reflexivity. lia.
Qed.

Lemma binary_round_below p ex :
  Z.pos p < 360 * 2 ^ (- ex) -> ex <= -44 ->
  at_most_360 (PyFloat (binary_round prec emax false p ex)).
Proof.
  intros H He. unfold binary_round, shl_align.
  destruct (fexp prec emax (Z.pos (digits2_pos p) + ex) - ex) as [|d|d] eqn:E.
  - apply binary_round_aux_below; [lia|assumption].
  - apply binary_round_aux_below; [lia|assumption].
  - apply binary_round_aux_below; [|lia].
    rewrite iter_xO. split; [lia|].
    replace (- fexp prec emax (Z.pos (digits2_pos p) + ex)) with (- ex + Z.pos d) by lia.
    rewrite Z.pow_add_r by lia.
    assert (0 < 2 ^ Z.pos d) by (apply Z.pow_pos_nonneg; lia). nia.
Qed.

(** A negative float plus 360.0 is at most 360.0. *)
Lemma fadd_360_at_most_360 m e :
  at_most_360 (PyFloat (fadd (S754_finite true m e) f360)).
Proof.
  unfold fadd, f360, SFadd, binary_normalize.
  set (ez := Z.min e (-44)).
  assert (Hez : ez <= -44) by (unfold ez; lia).
  assert (Hs : cond_Zopp true (Z.pos (fst (shl_align m e ez))) +
               cond_Zopp false (Z.pos (fst (shl_align 6333186975989760 (-44) ez)))
               < 360 * 2 ^ (- ez)).
  { cbn [cond_Zopp]. rewrite !shl_align_value by (unfold ez; lia).
    assert (0 < Z.pos m * 2 ^ (e - ez)) by (apply Z.mul_pos_pos; [lia|apply Z.pow_pos_nonneg; unfold ez; lia]).
    replace (- ez) with (44 + (-44 - ez)) by lia. rewrite Z.pow_add_r by lia.
    change (2 ^ 44) with 17592186044416. lia. }
  destruct (_ + _) as [|p|p] in Hs |- *.
  - reflexivity.
  - apply binary_round_below; assumption.
  - pose proof (binary_round_sign true p ez) as Hsign.
    unfold at_most_360, ltb, compare, compare_float_int.
    destruct (binary_round prec emax true p ez) as [s|s| |s m' e']; subst; try reflexivity.
    destruct (0 <=? e') eqn:He'; cbn [signed option_map].
    + apply Z.leb_le in He'.
      assert (0 < Z.pos m' * 2 ^ e') by (apply Z.mul_pos_pos; [lia|apply Z.pow_pos_nonneg; lia]).
      destruct (Z.compare_spec (Z.neg m' * 2 ^ e') 360); try reflexivity.
      change (Z.neg m') with (- Z.pos m') in *. lia.
    + apply Z.leb_gt in He'.
      assert (0 < 2 ^ (- e')) by (apply Z.pow_pos_nonneg; lia).
      destruct (Z.compare_spec (Z.neg m') (360 * 2 ^ (- e'))); try reflexivity. lia.
Qed.

Lemma shifted_at_most_360 phase :
  at_most_360 phase -> at_most_360 (shifted phase).
Proof.
  intros H. unfold shifted.
  destruct (ltb phase (PyInt 0)) eqn:Hneg; [|exact H].
  destruct phase as [n|f].
  - unfold at_most_360, ltb, compare in *.
    destruct (Z.compare_spec n 0); try discriminate.
    destruct (Z.compare_spec 360 (n + 360)); try reflexivity. lia.
  - destruct f as [s|s| |s m e]; try discriminate Hneg.
    + destruct s; [reflexivity|discriminate].
    + destruct s; [apply fadd_360_at_most_360|].
      pose proof (positive_sign_not_negative (S754_finite false m e) eq_refl) as P.
      unfold not_negative in P. congruence.
Qed.

(** C7 (amended). For every channel argument and every phase,
    [set_phase] on an open port sends exactly one command, with the
    channel-2 prefix [WFP]; a negative phase has 360 added once before it
    is sent, any other phase is sent as it is; the number sent is not
    negative when the phase is not below -360, and not above 360 when the
    phase is not; for an integer phase in [-360, 360) it lies in
    [0, 360); and [set_phase(2, -10)] sends 350. *)
Theorem set_phase_adds_360_once
    (float_repr : float -> string) (channel : option Z) (phase : num)
    (w : world) :
  connected w = true ->
  set_phase float_repr channel phase w =
    (Ok tt,
     sent w [Write ("WFP" ++ str_num float_repr (shifted phase) ++ EOL);
             Sleep SLEEP_TIME]) /\
  (ltb phase (PyInt 0) = true -> add phase (PyInt 360) = Ok (shifted phase)) /\
  (ltb phase (PyInt 0) = false -> shifted phase = phase) /\
  (ltb phase (PyInt (-360)) = false -> ltb (shifted phase) (PyInt 0) = false) /\
  (ltb (PyInt 360) phase = false -> ltb (PyInt 360) (shifted phase) = false) /\
  (forall n, phase = PyInt n -> -360 <= n < 360 ->
   exists k, shifted phase = PyInt k /\ 0 <= k < 360) /\
  set_phase float_repr (Some 2) (PyInt (-10)) w =
    (Ok tt, sent w [Write ("WFP" ++ "350" ++ EOL); Sleep SLEEP_TIME]).
Proof.
  intros Hc. repeat split.
  - unfold set_phase, shifted. open_port w Hc.
    destruct (ltb phase (PyInt 0)).
    + unfold bind at 1. unfold lift at 1. rewrite add_360.
      cbv -[app append str_num fadd]. rewrite <- ?app_assoc. reflexivity.
    + cbv -[app append str_num fadd]. rewrite <- ?app_assoc. reflexivity.
  - intros H. unfold shifted. rewrite H. apply add_360.
  - intros H. unfold shifted. rewrite H. reflexivity.
  - apply shifted_not_negative.
  - apply shifted_at_most_360.
  - intros n -> Hn. apply shifted_int_range, Hn.
  - open_port w Hc. evaluate.
Qed.

Lemma set_phase_adds_360_once_witness :
  set_phase sample_repr (Some 1) (PyInt (-90)) bench =
    (Ok tt, sent bench [Write ("WFP" ++ "270" ++ EOL); Sleep SLEEP_TIME]).
Proof.
  refine (proj1 (set_phase_adds_360_once sample_repr (Some 1) (PyInt (-90)) bench _)).
  reflexivity.
Defined.

(** C7, as stated, fails outside [-360, 360): a phase of -400 is sent as
    -40 (still negative), a phase of 400 is sent as 400; and the float
    -2^-60 is sent as 360.0, the sum being rounded. *)
Lemma set_phase_out_of_range :
  set_phase sample_repr (Some 2) (PyInt (-400)) bench =
    (Ok tt, sent bench [Write ("WFP" ++ "-40" ++ EOL); Sleep SLEEP_TIME]) /\
  set_phase sample_repr (Some 2) (PyInt 400) bench =
    (Ok tt, sent bench [Write ("WFP" ++ "400" ++ EOL); Sleep SLEEP_TIME]) /\
  shifted (PyFloat (S754_finite true 4503599627370496 (-112))) = PyFloat f360.
Proof. repeat split; vm_compute; reflexivity. Qed.

(** ** Wave type *)

(** C8. For a valid channel argument, [set_wave_type] with a wave type
    outside [WAVE_TYPES] raises [ValueError] and leaves the world as it
    was (nothing is written); with a supported wave type, on an open port,
    it sends the hard-coded sine commands -- [WMW00] when channel 1 is
    addressed, [WFW00] when channel 2 is, both for channel argument 0 --
    and what it does is the same for any two supported wave types. *)
Theorem set_wave_type_sine_only
    (WAVE_TYPES : list Z) (ch wave_type : Z) (w : world) :
  ch = 0 \/ ch = 1 \/ ch = 2 ->
  (mem wave_type WAVE_TYPES = false ->
   set_wave_type WAVE_TYPES (Some ch) wave_type w =
     (Raise (ValueError "Incorrect wave type."), w)) /\
  (mem wave_type WAVE_TYPES = true -> connected w = true ->
   set_wave_type WAVE_TYPES (Some ch) wave_type w =
     (Ok tt,
      sent w ((if (ch =? 0) || (ch =? 1)
               then [Write ("WMW00" ++ EOL); Sleep SLEEP_TIME] else []) ++
              (if (ch =? 0) || (ch =? 2)
               then [Write ("WFW00" ++ EOL); Sleep SLEEP_TIME] else []))%list)) /\
  (forall other : Z,
   mem wave_type WAVE_TYPES = true -> mem other WAVE_TYPES = true ->
   set_wave_type WAVE_TYPES (Some ch) other w =
   set_wave_type WAVE_TYPES (Some ch) wave_type w).
Proof.
  intros Hch. pose proof (bad_channel_valid ch Hch) as Hok.
  unfold set_wave_type. rewrite Hok. repeat split.
  - intros ->. reflexivity.
  - intros -> Hc. open_port w Hc.
    destruct Hch as [->|[->| ->]]; evaluate.
  - intros other -> ->. reflexivity.
Qed.

Lemma set_wave_type_sine_only_witness :
  set_wave_type sample_WAVE_TYPES (Some 0) 1 bench =
    (Ok tt, sent bench [Write ("WMW00" ++ EOL); Sleep SLEEP_TIME;
                        Write ("WFW00" ++ EOL); Sleep SLEEP_TIME]) /\
  set_wave_type sample_WAVE_TYPES (Some 0) 9 bench =
    (Raise (ValueError "Incorrect wave type."), bench).
Proof.
  split.
  - refine (proj1 (proj2 (set_wave_type_sine_only sample_WAVE_TYPES 0 1 bench _)) _ _);
      [left; reflexivity | reflexivity | reflexivity].
  - refine (proj1 (set_wave_type_sine_only sample_WAVE_TYPES 0 9 bench _) _);
      [left; reflexivity | reflexivity].
Defined.

(** ** Load impedance and the output coefficient *)

Lemma keeps_loads_modify P (f : FY6600 -> FY6600) :
  (forall d, r_load (f d) = r_load d /\ v_out_coeff (f d) = v_out_coeff d) ->
  keeps (loads P) (modify_self f).
Proof.
  intros Hf w H. unfold wp, loads, modify_self. simpl.
  destruct (Hf (self w)) as [-> ->]. exact H.
Qed.

Lemma keeps_loads_channel_on P l :
  keeps (loads P) (modify_self (fun d => with_channel_on d l)).
Proof. apply keeps_loads_modify. intros d. split; reflexivity. Qed.

Lemma keeps_loads_ser P (p : FY6600 -> option Serial) :
  keeps (loads P) (modify_self (fun d => with_ser d (p d))).
Proof. apply keeps_loads_modify. intros d. split; reflexivity. Qed.

#[local] Hint Resolve keeps_loads_channel_on keeps_loads_ser : keeps.

Lemma keeps_loads_enable_output P channel on :
  keeps (loads P) (enable_output channel on).
Proof. unfold enable_output. keeps_steps. Qed.

Lemma keeps_loads_initialize P : keeps (loads P) initialize.
Proof.
  unfold initialize. apply keeps_bind; [auto with keeps|intros _].
  apply keeps_bind; [|intros _; apply keeps_loads_enable_output].
  unfold _connect. apply (keeps_loads_ser P (fun d => Some _)).
Qed.

Lemma keeps_loads_disconnect P : keeps (loads P) disconnect.
Proof.
  intros w H. unfold wp, disconnect, bind, get_self.
  destruct (ser (self w)); exact H.
Qed.

Section Loads.

Variable HI_Z : num.
Variable WAVE_TYPES : list Z.
Variable float_repr : float -> string.

(** Only [set_load_impedance] touches the impedance lists. *)
Lemma keeps_loads_run P c :
  (forall channel z, c <> SetLoadImpedance channel z) ->
  keeps (loads P) (run HI_Z WAVE_TYPES float_repr c).
Proof.
  intros Hc. destruct c; cbn [run].
  - apply keeps_loads_initialize.
  - apply keeps_loads_disconnect.
  - unfold discard, get_id. keeps_steps.
  - apply keeps_loads_enable_output.
  - unfold set_frequency. keeps_steps.
  - unfold set_phase. keeps_steps.
  - unfold set_wave_type. keeps_steps.
  - unfold set_amplitude. keeps_steps.
  - unfold set_offset. keeps_steps.
  - exfalso. apply (Hc channel z). reflexivity.
Qed.

(** No method but the ones that send a command writes to the port:
    [set_load_impedance] leaves the trace as it is, whatever it is given. *)
Lemma set_load_impedance_silent channel z w :
  wire (snd (set_load_impedance HI_Z channel z w)) = wire w.
Proof.
  unfold set_load_impedance, bind, get_self, lift, modify_self, minus_one,
    raise, ret.
  destruct (bad_channel channel); [reflexivity|].
  destruct channel as [c|]; [|reflexivity].
  destruct (setitem (r_load (self w)) (c - 1) z); [|reflexivity].
  cbn [self wire]. destruct (divider HI_Z z); [|reflexivity].
  cbn [v_out_coeff with_r_load].
  destruct (setitem (v_out_coeff (self w)) (c - 1) a0); reflexivity.
Qed.

(** What [set_load_impedance] does with a single channel and with channel
    argument 0, on lists of two entries, when the divider is defined. *)
Lemma set_load_impedance_lists (c : Z) z v w z1 z2 c1 c2 :
  c = 0 \/ c = 1 \/ c = 2 ->
  r_load (self w) = [z1; z2] ->
  v_out_coeff (self w) = [c1; c2] ->
  divider HI_Z z = Ok v ->
  let (r, w') := set_load_impedance HI_Z (Some c) z w in
  r = Ok tt /\
  r_load (self w') = (if c =? 1 then [z; z2] else [z1; z]) /\
  v_out_coeff (self w') = (if c =? 1 then [v; c2] else [c1; v]) /\
  channel_on (self w') = channel_on (self w) /\
  ser (self w') = ser (self w) /\
  wire w' = wire w.
Proof.
  intros Hch Hr Hv Hd. destruct w as [[? ? ? ? rl vl] ?]. cbn in Hr, Hv. subst.
  unfold set_load_impedance. rewrite (bad_channel_valid c Hch).
  destruct Hch as [->|[->| ->]];
    cbv -[divider]; rewrite Hd; repeat split.
Qed.

(** With a divider that raises (a load of -50 ohms divides by zero), the
    load is already stored when the exception leaves the method, and the
    coefficient is the old one. *)
Lemma set_load_impedance_raises (c : Z) z e w z1 z2 c1 c2 :
  c = 0 \/ c = 1 \/ c = 2 ->
  r_load (self w) = [z1; z2] ->
  v_out_coeff (self w) = [c1; c2] ->
  divider HI_Z z = Raise e ->
  let (r, w') := set_load_impedance HI_Z (Some c) z w in
  r = Raise e /\
  r_load (self w') = (if c =? 1 then [z; z2] else [z1; z]) /\
  v_out_coeff (self w') = [c1; c2].
Proof.
  intros Hch Hr Hv Hd. destruct w as [[? ? ? ? rl vl] ?]. cbn in Hr, Hv. subst.
  unfold set_load_impedance. rewrite (bad_channel_valid c Hch).
  destruct Hch as [->|[->| ->]];
    cbv -[divider]; rewrite Hd; repeat split.
Qed.

(** *** The coefficient follows the load, once a load has been set *)

(** A successful [set_load_impedance] establishes it for the entry it
    writes: the addressed channel's for 1 and 2, channel 2's for 0. *)
Lemma divided_after_set_load_impedance (c : Z) z w :
  c = 0 \/ c = 1 \/ c = 2 ->
  two_channels (self w) ->
  fst (set_load_impedance HI_Z (Some c) z w) = Ok tt ->
  divided HI_Z (self (snd (set_load_impedance HI_Z (Some c) z w)))
          (if c =? 1 then 0 else 1).
Proof.
  intros Hch Hw Hok.
  destruct (two_lists _ Hw) as (z1 & z2 & c1 & c2 & Hr & Hv).
  destruct (divider HI_Z z) as [v|e] eqn:Hd.
  - pose proof (set_load_impedance_lists c z v w z1 z2 c1 c2 Hch Hr Hv Hd) as L.
    destruct (set_load_impedance HI_Z (Some c) z w) as [r w'].
    destruct L as (_ & Hr' & Hv' & _). cbn [snd].
    exists z, v. rewrite Hr', Hv'.
    destruct Hch as [->|[->| ->]]; repeat split; assumption.
  - pose proof (set_load_impedance_raises c z e w z1 z2 c1 c2 Hch Hr Hv Hd) as L.
    destruct (set_load_impedance HI_Z (Some c) z w) as [r w'].
    destruct L as (Hr' & _). cbn [fst] in Hok. congruence.
Qed.

(** Every call that returns normally keeps it. *)
Lemma divided_kept c w k :
  two_channels (self w) ->
  divided HI_Z (self w) k ->
  fst (run HI_Z WAVE_TYPES float_repr c w) = Ok tt ->
  divided HI_Z (self (snd (run HI_Z WAVE_TYPES float_repr c w))) k.
Proof.
  intros Hw Hk Hok.
  assert (Hother : (forall channel z, c <> SetLoadImpedance channel z) ->
                   divided HI_Z (self (snd (run HI_Z WAVE_TYPES float_repr c w))) k).
  { intros Hc.
    apply (keeps_loads_run
             (fun rl vl => exists z v, nth_error rl k = Some z /\
                                       nth_error vl k = Some v /\
                                       divider HI_Z z = Ok v) c Hc w Hk). }
  destruct c; try (apply Hother; discriminate).
  clear Hother. cbn [run] in *.
  destruct (bad_channel channel) eqn:Hbad.
  { unfold set_load_impedance in Hok. rewrite Hbad in Hok. discriminate. }
  destruct channel as [c|].
  2:{ unfold set_load_impedance in Hok. rewrite Hbad in Hok. discriminate. }
  assert (Hch : c = 0 \/ c = 1 \/ c = 2).
  { unfold bad_channel, mem_opt, mem, CHANNELS in Hbad. cbn in Hbad.
    destruct (Z.eqb_spec c 0); [auto|]. destruct (Z.eqb_spec c 1); [auto|].
    destruct (Z.eqb_spec c 2); [auto|]. discriminate. }
  destruct (two_lists _ Hw) as (z1 & z2 & c1 & c2 & Hr & Hv).
  destruct (divider HI_Z z) as [v|e] eqn:Hd.
  - pose proof (set_load_impedance_lists c z v w z1 z2 c1 c2 Hch Hr Hv Hd) as L.
    destruct (set_load_impedance HI_Z (Some c) z w) as [r w'].
    destruct L as (_ & Hr' & Hv' & _). cbn [snd].
    destruct Hk as (zk & vk & Hzk & Hvk & Hdk). rewrite Hr in Hzk. rewrite Hv in Hvk.
    unfold divided. rewrite Hr', Hv'.
    destruct k as [|[|k]]; cbn in Hzk, Hvk.
    + destruct (c =? 1); [exists z, v | exists zk, vk]; cbn; repeat split; congruence.
    + destruct (c =? 1); [exists zk, vk | exists z, v]; cbn; repeat split; congruence.
    + destruct k; discriminate.
  - pose proof (set_load_impedance_raises c z e w z1 z2 c1 c2 Hch Hr Hv Hd) as L.
    destruct (set_load_impedance HI_Z (Some c) z w) as [r w'].
    destruct L as (Hr' & _). cbn [fst] in Hok. congruence.
Qed.

End Loads.

(** The divider on the loads of the specification's examples. *)
Lemma divider_50 HI_Z :
  eqb (PyFloat f50) HI_Z = false -> divider HI_Z (PyFloat f50) = Ok (PyFloat f0_5).
Proof. intros H. unfold divider. rewrite H. vm_compute. reflexivity. Qed.

Lemma divider_150 HI_Z :
  eqb (PyFloat f150) HI_Z = false -> divider HI_Z (PyFloat f150) = Ok (PyFloat f0_75).
Proof. intros H. unfold divider. rewrite H. vm_compute. reflexivity. Qed.

Lemma divider_HI_Z HI_Z z : eqb z HI_Z = true -> divider HI_Z z = Ok (PyInt 1).
Proof. intros H. unfold divider. rewrite H. reflexivity. Qed.

Lemma divider_minus_50 HI_Z :
  eqb (PyInt (-50)) HI_Z = false ->
  divider HI_Z (PyInt (-50)) = Raise ZeroDivisionError.
Proof. intros H. unfold divider. rewrite H. vm_compute. reflexivity. Qed.

(** C1 (the code at its failing input). A freshly constructed session,
    which is a reachable one, stores a load of 50 for each channel and a
    coefficient of 1 for each channel, while the divider gives 0.5 for a
    load of 50 (50 not being the Hi-Z sentinel): from construction until
    the first [set_load_impedance], the coefficient does not reflect the
    stored load. *)
Theorem construction_coefficient_is_not_divider
    (HI_Z : num) (WAVE_TYPES : list Z) (float_repr : float -> string)
    (port : string) (baud_rate timeout : Z) (log_debug : bool) :
  eqb (PyInt 50) HI_Z = false ->
  let w := fresh port baud_rate timeout log_debug in
  reachable HI_Z WAVE_TYPES float_repr w /\
  r_load (self w) = [PyInt 50; PyInt 50] /\
  v_out_coeff (self w) = [PyInt 1; PyInt 1] /\
  divider HI_Z (PyInt 50) = Ok (PyFloat f0_5) /\
  eqb (PyInt 1) (PyFloat f0_5) = false /\
  ~ divided HI_Z (self w) 0 /\ ~ divided HI_Z (self w) 1.
Proof.
  intros H.
  assert (Hd : divider HI_Z (PyInt 50) = Ok (PyFloat f0_5)).
  { unfold divider. rewrite H. vm_compute. reflexivity. }
  repeat split.
  - apply reachable_fresh.
  - exact Hd.
  - intros (z & v & Hz & Hv & Hzv). cbn in Hz, Hv.
    injection Hz as <-. injection Hv as <-. rewrite Hd in Hzv. discriminate.
  - intros (z & v & Hz & Hv & Hzv). cbn in Hz, Hv.
    injection Hz as <-. injection Hv as <-. rewrite Hd in Hzv. discriminate.
Qed.

Lemma construction_coefficient_is_not_divider_witness :
  let w := fresh "/dev/ttyUSB0" BAUD_RATE TIMEOUT false in
  v_out_coeff (self w) = [PyInt 1; PyInt 1] /\
  divider sample_HI_Z (PyInt 50) = Ok (PyFloat f0_5) /\
  ~ divided sample_HI_Z (self w) 0.
Proof.
  pose proof (construction_coefficient_is_not_divider sample_HI_Z
                sample_WAVE_TYPES sample_repr "/dev/ttyUSB0" BAUD_RATE TIMEOUT
                false eq_refl) as (_ & _ & Hv & Hd & _ & H0 & _).
  repeat split; assumption.
Defined.

(** C2 (the code at its failing input). [set_load_impedance(0, 150.0)]
    on a freshly constructed session returns normally and recomputes the
    coefficient of channel 2 only (0.75); the coefficient of channel 1,
    which channel argument 0 addresses as well, stays 1. *)
Theorem set_load_impedance_both_coefficients
    (HI_Z : num) (port : string) (baud_rate timeout : Z) (log_debug : bool) :
  eqb (PyFloat f150) HI_Z = false ->
  let (r, w') := set_load_impedance HI_Z (Some 0) (PyFloat f150)
                   (fresh port baud_rate timeout log_debug) in
  r = Ok tt /\ v_out_coeff (self w') = [PyInt 1; PyFloat f0_75].
Proof.
  intros H.
  pose proof (set_load_impedance_lists HI_Z 0 (PyFloat f150) (PyFloat f0_75)
                (fresh port baud_rate timeout log_debug)
                (PyInt 50) (PyInt 50) (PyInt 1) (PyInt 1)
                (or_introl eq_refl) eq_refl eq_refl (divider_150 HI_Z H)) as L.
  destruct (set_load_impedance HI_Z (Some 0) (PyFloat f150)
              (fresh port baud_rate timeout log_debug)) as [r w'].
  destruct L as (Hr & _ & Hv & _). split; [exact Hr | exact Hv].
Qed.

Lemma set_load_impedance_both_coefficients_witness :
  let (r, w') := set_load_impedance sample_HI_Z (Some 0) (PyFloat f150)
                   (fresh "/dev/ttyUSB0" BAUD_RATE TIMEOUT false) in
  r = Ok tt /\ v_out_coeff (self w') = [PyInt 1; PyFloat f0_75].
Proof.
  apply (set_load_impedance_both_coefficients sample_HI_Z
           "/dev/ttyUSB0" BAUD_RATE TIMEOUT false).
  reflexivity.
Defined.

(** C4 (the code at its failing input). [set_load_impedance(0, z)] on a
    freshly constructed session stores [z] as the load of channel 2 only:
    the load of channel 1 stays 50. Nothing is written to the port. *)
Theorem set_load_impedance_both_loads
    (HI_Z z : num) (port : string) (baud_rate timeout : Z) (log_debug : bool) :
  let w' := snd (set_load_impedance HI_Z (Some 0) z
                   (fresh port baud_rate timeout log_debug)) in
  r_load (self w') = [PyInt 50; z] /\ wire w' = [].
Proof.
  cbv zeta. split.
  - unfold set_load_impedance. cbn [bad_channel is_None mem_opt mem CHANNELS
      existsb Z.eqb negb andb orb].
    cbv -[divider]. destruct (divider HI_Z z); reflexivity.
  - apply set_load_impedance_silent.
Qed.

(** ** Amplitude *)

(** With a single channel [c], the amplitude is divided by that channel's
    coefficient, and the quotient goes out with three decimals. *)
Lemma set_amplitude_single (c : Z) amplitude q w c1 c2 :
  c = 1 \/ c = 2 ->
  connected w = true ->
  v_out_coeff (self w) = [c1; c2] ->
  truediv amplitude (if c =? 1 then c1 else c2) = Ok (PyFloat q) ->
  set_amplitude (Some c) amplitude w =
    (Ok tt, sent w [Write ((if c =? 1 then "WMA" else "WFA") ++ format_f 3 q ++ EOL);
                    Sleep SLEEP_TIME]).
Proof.
  intros Hch Hc Hv Hq. open_port w Hc. cbn in Hv. subst.
  unfold set_amplitude. rewrite (bad_channel_valid c (or_intror Hch)).
  destruct Hch as [->| ->]; cbn in Hq;
    cbv -[app append truediv format_f]; rewrite Hq;
    cbv -[app append format_f]; rewrite <- ?app_assoc; reflexivity.
Qed.

(** With channel argument 0, the one quotient that goes to both channels
    is the amplitude divided by the coefficient of channel 2. *)
Lemma set_amplitude_both amplitude q w c1 c2 :
  connected w = true ->
  v_out_coeff (self w) = [c1; c2] ->
  truediv amplitude c2 = Ok (PyFloat q) ->
  set_amplitude (Some 0) amplitude w =
    (Ok tt, sent w [Write ("WMA" ++ format_f 3 q ++ EOL); Sleep SLEEP_TIME;
                    Write ("WFA" ++ format_f 3 q ++ EOL); Sleep SLEEP_TIME]).
Proof.
  intros Hc Hv Hq. open_port w Hc. cbn in Hv. subst.
  unfold set_amplitude. cbn [bad_channel is_None mem_opt mem CHANNELS
    existsb Z.eqb negb andb orb].
  cbv -[app append truediv format_f]. rewrite Hq.
  cbv -[app append format_f]. rewrite <- ?app_assoc. reflexivity.
Qed.

(** C5 (the code at its failing input). With a coefficient of 0.5 for
    channel 1 and of 1 for channel 2 (the state [set_load_impedance(1,
    50.0)] leaves behind), [set_amplitude(0, 1.0)] sends 1.000 to both
    channels: channel 1 is served with the coefficient of channel 2, not
    with its own (which gives 2.000, as [set_amplitude(1, 1.0)] shows). *)
Theorem set_amplitude_both_uses_channel_2 (w : world) :
  connected w = true ->
  v_out_coeff (self w) = [PyFloat f0_5; PyInt 1] ->
  set_amplitude (Some 0) (PyFloat f1) w =
    (Ok tt, sent w [Write ("WMA" ++ "1.000" ++ EOL); Sleep SLEEP_TIME;
                    Write ("WFA" ++ "1.000" ++ EOL); Sleep SLEEP_TIME]) /\
  set_amplitude (Some 1) (PyFloat f1) w =
    (Ok tt, sent w [Write ("WMA" ++ "2.000" ++ EOL); Sleep SLEEP_TIME]).
Proof.
  intros Hc Hv. split.
  - apply (set_amplitude_both (PyFloat f1) f1 w _ _ Hc Hv). reflexivity.
  - apply (set_amplitude_single 1 (PyFloat f1) f2 w _ _ (or_introl eq_refl) Hc Hv).
    reflexivity.
Qed.

Lemma set_amplitude_both_uses_channel_2_witness :
  let w := snd (set_load_impedance sample_HI_Z (Some 1) (PyFloat f50) bench) in
  set_amplitude (Some 0) (PyFloat f1) w =
    (Ok tt, sent w [Write ("WMA" ++ "1.000" ++ EOL); Sleep SLEEP_TIME;
                    Write ("WFA" ++ "1.000" ++ EOL); Sleep SLEEP_TIME]).
Proof.
  refine (proj1 (set_amplitude_both_uses_channel_2 _ _ _)); reflexivity.
Defined.

(** * Further properties of the driver *)

(** ** Sequences of calls *)

(** The world after the calls [cs], one after the other, whatever each of
    them returned or raised. *)
Fixpoint run_all (HI_Z : num) (WAVE_TYPES : list Z) (float_repr : float -> string)
    (cs : list call) (w : world) : world :=
  match cs with
  | [] => w
  | c :: cs' =>
    run_all HI_Z WAVE_TYPES float_repr cs'
      (snd (run HI_Z WAVE_TYPES float_repr c w))
  end.

(** Every one of the calls [cs], started in [w], returned normally. *)
Fixpoint all_returned (HI_Z : num) (WAVE_TYPES : list Z)
    (float_repr : float -> string) (cs : list call) (w : world) : Prop :=
  match cs with
  | [] => True
  | c :: cs' =>
    fst (run HI_Z WAVE_TYPES float_repr c w) = Ok tt /\
    all_returned HI_Z WAVE_TYPES float_repr cs'
      (snd (run HI_Z WAVE_TYPES float_repr c w))
  end.

(** The commands a call put on the wire: what the trace gained is the
    lines [cmds], each followed by the pause. *)
Definition wrote (w w' : world) (cmds : list string) : Prop :=
  wire w' = (wire w ++ flat_map command cmds)%list.

(** ** Offset *)

(** X1. For a single channel [c] (1 or 2), [set_offset] on an open port
    divides the offset by that channel's coefficient and sends the
    quotient, printed with [repr], in one command: [WMO] for channel 1,
    [WFO] for channel 2. With channel argument 0 it divides once, by the
    coefficient of channel 2, and sends that quotient to both channels. *)
Theorem set_offset_compensated
    (float_repr : float -> string) (c : Z) (offset c1 c2 : num) (w : world) :
  c = 1 \/ c = 2 ->
  connected w = true ->
  v_out_coeff (self w) = [c1; c2] ->
  (forall q, truediv offset (if c =? 1 then c1 else c2) = Ok (PyFloat q) ->
   set_offset float_repr (Some c) offset w =
     (Ok tt, sent w [Write ((if c =? 1 then "WMO" else "WFO") ++ float_repr q ++ EOL);
                     Sleep SLEEP_TIME])) /\
  (forall q, truediv offset c2 = Ok (PyFloat q) ->
   set_offset float_repr (Some 0) offset w =
     (Ok tt, sent w [Write ("WMO" ++ float_repr q ++ EOL); Sleep SLEEP_TIME;
                     Write ("WFO" ++ float_repr q ++ EOL); Sleep SLEEP_TIME])).
Proof.
  intros Hch Hc Hv. open_port w Hc. cbn in Hv. subst. split; intros q Hq.
  - unfold set_offset. rewrite (bad_channel_valid c (or_intror Hch)).
    destruct Hch as [->| ->]; cbn in Hq;
      cbv -[app append truediv]; rewrite Hq;
      cbv -[app append]; rewrite <- ?app_assoc; reflexivity.
  - unfold set_offset. cbn [bad_channel is_None mem_opt mem CHANNELS
      existsb Z.eqb negb andb orb].
    cbv -[app append truediv]. rewrite Hq.
    cbv -[app append]. rewrite <- ?app_assoc. reflexivity.
Qed.

Lemma set_offset_compensated_witness :
  let w := snd (set_load_impedance sample_HI_Z (Some 2) (PyFloat f50) bench) in
  set_offset sample_repr (Some 2) (PyFloat f1) w =
    (Ok tt, sent w [Write ("WFO" ++ "2.0" ++ EOL); Sleep SLEEP_TIME]).
Proof.
  refine (proj1 (set_offset_compensated sample_repr 2 (PyFloat f1)
                   (PyInt 1) (PyFloat f0_5) _ _ _ _) f2 _);
    [right; reflexivity | reflexivity | reflexivity | reflexivity].
Defined.

(** ** More on the load impedance *)

(** X2. Whatever its arguments (any channel, valid or not, or None; any
    impedance) and whether it returns or raises, [set_load_impedance]
    writes nothing to the port and touches neither the enabled flags nor
    the port object. *)
Theorem set_load_impedance_is_local
    (HI_Z : num) (channel : option Z) (z : num) (w : world) :
  let w' := snd (set_load_impedance HI_Z channel z w) in
  wire w' = wire w /\
  channel_on (self w') = channel_on (self w) /\
  ser (self w') = ser (self w) /\
  port (self w') = port (self w) /\
  timeout (self w') = timeout (self w).
Proof.
  cbv zeta.
  unfold set_load_impedance, bind, get_self, lift, modify_self, minus_one,
    raise, ret.
  destruct (bad_channel channel); [repeat split|].
  destruct channel as [c|]; [|repeat split].
  destruct (setitem (r_load (self w)) (c - 1) z); [|repeat split].
  cbn [self wire]. destruct (divider HI_Z z) as [v|e]; [|repeat split].
  cbn [v_out_coeff with_r_load].
  destruct (setitem (v_out_coeff (self w)) (c - 1) v); repeat split.
Qed.

(** X3. [set_load_impedance] is not all-or-nothing. When the divider
    raises (the load -50 makes [z + 50.0] zero, so the division raises
    [ZeroDivisionError]), the exception leaves the method after the load
    was stored: the load list holds the new value, the coefficient list
    still the old one, and nothing was written. *)
Theorem set_load_impedance_raises_after_store
    (HI_Z : num) (c : Z) (z : num) (e : exn) (w : world) (z1 z2 c1 c2 : num) :
  c = 1 \/ c = 2 ->
  r_load (self w) = [z1; z2] ->
  v_out_coeff (self w) = [c1; c2] ->
  divider HI_Z z = Raise e ->
  (let (r, w') := set_load_impedance HI_Z (Some c) z w in
   r = Raise e /\
   r_load (self w') = (if c =? 1 then [z; z2] else [z1; z]) /\
   v_out_coeff (self w') = [c1; c2] /\
   wire w' = wire w) /\
  (eqb (PyInt (-50)) HI_Z = false ->
   divider HI_Z (PyInt (-50)) = Raise ZeroDivisionError) /\
  (eqb (PyFloat (SFopp f50)) HI_Z = false ->
   divider HI_Z (PyFloat (SFopp f50)) = Raise ZeroDivisionError).
Proof.
  intros Hch Hr Hv Hd. repeat split.
  - pose proof (set_load_impedance_raises HI_Z c z e w z1 z2 c1 c2
                  (or_intror Hch) Hr Hv Hd) as L.
    pose proof (set_load_impedance_silent HI_Z (Some c) z w) as S.
    destruct (set_load_impedance HI_Z (Some c) z w) as [r w'].
    destruct L as (L1 & L2 & L3). repeat split; assumption.
  - apply divider_minus_50.
  - intros H. unfold divider. rewrite H. vm_compute. reflexivity.
Qed.

Lemma set_load_impedance_raises_after_store_witness :
  let (r, w') := set_load_impedance sample_HI_Z (Some 1) (PyInt (-50)) bench in
  r = Raise ZeroDivisionError /\
  r_load (self w') = [PyInt (-50); PyInt 50] /\
  v_out_coeff (self w') = [PyInt 1; PyInt 1] /\
  wire w' = wire bench.
Proof.
  refine (proj1 (set_load_impedance_raises_after_store sample_HI_Z 1 (PyInt (-50))
                   ZeroDivisionError bench (PyInt 50) (PyInt 50) (PyInt 1) (PyInt 1)
                   _ _ _ _));
    [left; reflexivity | reflexivity | reflexivity | reflexivity].
Defined.

(** ** None as the channel *)

(** X4. The channel check lets None through, but [set_amplitude],
    [set_offset] and [set_load_impedance] then compute [channel - 1]:
    with None as the channel each of them raises [TypeError] and leaves
    the world as it was. *)
Theorem none_channel_type_error
    (HI_Z : num) (float_repr : float -> string) (x : num) (w : world) :
  set_amplitude None x w = (Raise TypeError, w) /\
  set_offset float_repr None x w = (Raise TypeError, w) /\
  set_load_impedance HI_Z None x w = (Raise TypeError, w).
Proof.
  unfold set_amplitude, set_offset, set_load_impedance.
  cbn [bad_channel is_None negb andb]. unfold bind, minus_one, raise.
  repeat split.
Qed.

(** X5. With None as the channel, [set_frequency] addresses channel 1
    only (its channel-2 test does not admit None), while [set_wave_type]
    addresses both channels. *)
Theorem none_channel_frequency_and_wave_type
    (WAVE_TYPES : list Z) (freq : num) (x : float) (wave_type : Z) (w : world) :
  connected w = true ->
  (to_float freq = Ok x ->
   set_frequency None freq w =
     (Ok tt, sent w [Write ("WMF" ++ (hundredths x ++ "0000") ++ EOL);
                     Sleep SLEEP_TIME])) /\
  (mem wave_type WAVE_TYPES = true ->
   set_wave_type WAVE_TYPES None wave_type w =
     (Ok tt, sent w [Write ("WMW00" ++ EOL); Sleep SLEEP_TIME;
                     Write ("WFW00" ++ EOL); Sleep SLEEP_TIME])).
Proof.
  intros Hc. split.
  - intros Hx. unfold set_frequency. cbn [bad_channel is_None negb andb].
    unfold bind at 1. unfold lift at 1. rewrite Hx.
    rewrite remove_point_format_f. open_port w Hc.
    cbv -[app append hundredths]. rewrite <- ?app_assoc. reflexivity.
  - intros Hm. unfold set_wave_type. cbn [bad_channel is_None negb andb].
    rewrite Hm. open_port w Hc. evaluate.
Qed.

Lemma none_channel_frequency_and_wave_type_witness :
  set_frequency None (PyFloat f1) bench =
    (Ok tt, sent bench [Write ("WMF" ++ "1000000" ++ EOL); Sleep SLEEP_TIME]).
Proof.
  refine (proj1 (none_channel_frequency_and_wave_type sample_WAVE_TYPES
                   (PyFloat f1) f1 0 bench _) _); reflexivity.
Defined.

(** X6. [enable_output] with None as the channel does, in every world,
    exactly what it does with channel 0; on an open port both store [on]
    for both channels and send both commands with that state. *)
Theorem enable_output_none_is_both (on : bool) (w : world) :
  connected w = true ->
  enable_output None on w = enable_output (Some 0) on w /\
  let (r, w') := enable_output None on w in
  r = Ok tt /\
  channel_on (self w') = [on; on] /\
  wire w' = (wire w ++ [Write ("WMN" ++ bit on ++ EOL); Sleep SLEEP_TIME;
                        Write ("WFN" ++ bit on ++ EOL); Sleep SLEEP_TIME])%list.
Proof.
  intros Hc. split; [reflexivity|].
  open_port w Hc. cbv -[app append bit]. rewrite <- ?app_assoc. repeat split.
Qed.

Lemma enable_output_none_is_both_witness :
  let (r, w') := enable_output None true bench in
  r = Ok tt /\
  channel_on (self w') = [true; true] /\
  wire w' = (wire bench ++ [Write ("WMN" ++ "1" ++ EOL); Sleep SLEEP_TIME;
                            Write ("WFN" ++ "1" ++ EOL); Sleep SLEEP_TIME])%list.
Proof.
  refine (proj2 (enable_output_none_is_both true bench _)). reflexivity.
Defined.

(** ** Opening and closing the port *)


(** X8. On a session whose port was never opened, [enable_output] with a
    single channel raises [AttributeError] and writes nothing, but only
    after it has stored the new flag: the object then says the channel is
    in a state that was never sent to the device. *)
Theorem enable_output_unopened (c : Z) (on b1 b2 : bool) (w : world) :
  c = 1 \/ c = 2 ->
  ser (self w) = None ->
  channel_on (self w) = [b1; b2] ->
  let (r, w') := enable_output (Some c) on w in
  r = Raise AttributeError /\
  channel_on (self w') = (if c =? 1 then [on; b2] else [b1; on]) /\
  wire w' = wire w.
Proof.
  intros Hch Hs Hl. destruct w as [[? s ? l ? ?] ?].
  cbn in Hs, Hl. subst.
  destruct Hch as [->| ->]; cbv -[app append]; repeat split.
Qed.

Lemma enable_output_unopened_witness :
  let (r, w') := enable_output (Some 1) true
                   (fresh "/dev/ttyUSB0" BAUD_RATE TIMEOUT false) in
  r = Raise AttributeError /\
  channel_on (self w') = [true; false] /\
  wire w' = [].
Proof.
  apply (enable_output_unopened 1 true false false
           (fresh "/dev/ttyUSB0" BAUD_RATE TIMEOUT false));
    [left; reflexivity | reflexivity | reflexivity].
Defined.

(** X9. [disconnect] before the port was ever opened raises
    [AttributeError] and changes nothing; on an opened port it returns
    normally, writes nothing, and changes nothing but the port, which is
    closed afterwards. *)
Theorem disconnect_effect (w : world) :
  match ser (self w) with
  | None => disconnect w = (Raise AttributeError, w)
  | Some _ =>
    let (r, w') := disconnect w in
    r = Ok tt /\
    connected w' = false /\
    wire w' = wire w /\
    channel_on (self w') = channel_on (self w) /\
    r_load (self w') = r_load (self w) /\
    v_out_coeff (self w') = v_out_coeff (self w)
  end.
Proof.
  destruct w as [[? [p|] ? ? ? ?] ?]; cbv; repeat split.
Qed.

(** ** Properties of every call *)

(** Which calls can change which part of the object. *)
Definition sets_loads (c : call) : bool :=
  match c with
  | SetLoadImpedance _ _ => true
  | _ => false
  end.

Definition sets_flags (c : call) : bool :=
  match c with
  | Initialize | EnableOutput _ _ => true
  | _ => false
  end.

Definition sets_port (c : call) : bool :=
  match c with
  | Initialize | Disconnect => true
  | _ => false
  end.

(** A channel argument is refused by the check, or is 0, 1 or 2. *)
Lemma bad_channel_cases (ch : Z) :
  bad_channel (Some ch) = true \/ ch = 0 \/ ch = 1 \/ ch = 2.
Proof.
  unfold bad_channel, mem_opt, mem, CHANNELS. cbn.
  destruct (Z.eqb_spec ch 0); [auto|]. destruct (Z.eqb_spec ch 1); [auto|].
  destruct (Z.eqb_spec ch 2); auto.
Qed.

(** Case analysis on whatever a method body is stuck on. *)
Ltac split_match :=
  match goal with
  | |- context [match ?x with _ => _ end] =>
    lazymatch x with
    | context [match _ with _ => _ end] => fail
    | _ => destruct x eqn:?
    end
  end.

Ltac crunch :=
  cbv -[app append to_float truediv add ltb PyNum.eqb divider format_f
        remove_char str_num getitem setitem mem strip bad_channel Z.sub];
  repeat (split_match;
          cbv -[app append to_float truediv add ltb PyNum.eqb divider format_f
                remove_char str_num getitem setitem mem strip bad_channel Z.sub]).

(** The same, leaving a statement about the added commands as it is. *)
Ltac crunch_wrote :=
  cbv -[app append to_float truediv add ltb PyNum.eqb divider format_f
        remove_char str_num getitem setitem mem strip bad_channel Z.sub
        flat_map command List.length];
  repeat (split_match;
          cbv -[app append to_float truediv add ltb PyNum.eqb divider format_f
                remove_char str_num getitem setitem mem strip bad_channel Z.sub
                flat_map command List.length]).

Ltac unfold_methods :=
  unfold initialize, disconnect, discard, get_id, enable_output,
    set_frequency, set_phase, set_wave_type, set_amplitude, set_offset,
    set_load_impedance.

Section EveryCall.

Variable HI_Z : num.
Variable WAVE_TYPES : list Z.
Variable float_repr : float -> string.


(** X11. Whatever the call, its arguments and the state of the port,
    what a call adds to the trace is at most two command lines, each
    ending in LF and each followed by the 0.5 s pause; nothing that was
    on the trace before is changed. *)
Theorem at_most_two_commands (c : call) (w : world) :
  exists cmds : list string,
    (List.length cmds <= 2)%nat /\
    wrote w (snd (run HI_Z WAVE_TYPES float_repr c w)) cmds.
Proof.
  destruct w as [[? [[? ? ? ? ? ? [|]]|] ? ? ? ?] ?];
  destruct c as [ | |reply|channel on|channel freq|channel phase|channel wt
                 |channel a|channel o|channel z]; cbn [run];
    try destruct channel as [ch|];
    unfold wrote; unfold_methods; crunch_wrote;
    first
      [ exists []; split; [cbn; lia | cbn [flat_map]; rewrite ?app_nil_r; reflexivity]
      | eexists [_]; split;
          [cbn; lia
          |cbn [flat_map command app]; rewrite <- ?app_assoc; cbn [app]; reflexivity]
      | eexists [_; _]; split;
          [cbn; lia
          |cbn [flat_map command app]; rewrite <- ?app_assoc; cbn [app]; reflexivity] ].
Qed.

(** X12. Once the port is open it stays open under every call but
    [disconnect], whether the call returns or raises. *)
Theorem stays_connected (c : call) (w : world) :
  connected w = true ->
  c <> Disconnect ->
  connected (snd (run HI_Z WAVE_TYPES float_repr c w)) = true.
Proof.
  intros Hc Hd. open_port w Hc.
  destruct c as [ | |reply|channel on|channel freq|channel phase|channel wt
                 |channel a|channel o|channel z]; cbn [run];
    try congruence;
    try destruct channel as [ch|];
    unfold_methods; crunch; reflexivity.
Qed.

End EveryCall.


Lemma stays_connected_witness :
  connected (snd (run sample_HI_Z sample_WAVE_TYPES sample_repr
                    (SetAmplitude None (PyFloat f1)) bench)) = true.
Proof.
  apply (stays_connected sample_HI_Z sample_WAVE_TYPES sample_repr
           (SetAmplitude None (PyFloat f1)) bench);
    [reflexivity | discriminate].
Defined.

(** The exceptions arithmetic can raise. *)
Definition arithmetic_error (e : exn) : Prop :=
  e = ZeroDivisionError \/ e = OverflowError.

Lemma float_of_int_raises n e : float_of_int n = Raise e -> arithmetic_error e.
Proof.
  unfold float_of_int.
  destruct (binary_normalize prec emax n 0 false); intros H;
    try discriminate; injection H as <-; right; reflexivity.
Qed.

Lemma to_float_raises x e : to_float x = Raise e -> arithmetic_error e.
Proof.
  destruct x; cbn; [apply float_of_int_raises | discriminate].
Qed.

Lemma float_truediv_raises a b e :
  float_truediv a b = Raise e -> arithmetic_error e.
Proof.
  unfold float_truediv. destruct (is_zero b); intros H; try discriminate.
  injection H as <-. left. reflexivity.
Qed.

Lemma int_truediv_raises a b e : int_truediv a b = Raise e -> arithmetic_error e.
Proof.
  unfold int_truediv. destruct b; [intros H; injection H as <-; left; reflexivity| |];
    (destruct a; [discriminate| |];
     match goal with |- context [fdiv ?x ?y] => destruct (fdiv x y) end;
     intros H; try discriminate; injection H as <-; right; reflexivity).
Qed.

Lemma add_raises a b e : add a b = Raise e -> arithmetic_error e.
Proof.
  unfold add, bind_result. destruct a as [x|x], b as [y|y]; cbn [to_float];
    try discriminate.
  - destruct (float_of_int x) eqn:E; [discriminate|].
    intros H. injection H as <-. eapply float_of_int_raises, E.
  - destruct (float_of_int y) eqn:E; [discriminate|].
    intros H. injection H as <-. eapply float_of_int_raises, E.
Qed.

Lemma truediv_raises a b e : truediv a b = Raise e -> arithmetic_error e.
Proof.
  unfold truediv, bind_result. destruct a as [x|x], b as [y|y]; cbn [to_float].
  - destruct (int_truediv x y) eqn:E; [discriminate|].
    intros H. injection H as <-. eapply int_truediv_raises, E.
  - destruct (float_of_int x) eqn:E.
    + destruct (float_truediv a y) eqn:E'; [discriminate|].
      intros H. injection H as <-. eapply float_truediv_raises, E'.
    + intros H. injection H as <-. eapply float_of_int_raises, E.
  - destruct (float_of_int y) eqn:E.
    + destruct (float_truediv x a) eqn:E'; [discriminate|].
      intros H. injection H as <-. eapply float_truediv_raises, E'.
    + intros H. injection H as <-. eapply float_of_int_raises, E.
  - destruct (float_truediv x y) eqn:E'; [discriminate|].
    intros H. injection H as <-. eapply float_truediv_raises, E'.
Qed.

Lemma divider_raises HI_Z z e : divider HI_Z z = Raise e -> arithmetic_error e.
Proof.
  unfold divider, bind_result. destruct (eqb z HI_Z); [discriminate|].
  destruct (add z (PyFloat R_IN)) eqn:E.
  - apply truediv_raises.
  - intros H. injection H as <-. eapply add_raises, E.
Qed.

(** An arithmetic exception is not an [IndexError]. *)
Ltac not_arithmetic :=
  let E := fresh in
  intros E; injection E as ->;
  match goal with
  | H : to_float _ = Raise IndexError |- _ => apply to_float_raises in H
  | H : truediv _ _ = Raise IndexError |- _ => apply truediv_raises in H
  | H : add _ _ = Raise IndexError |- _ => apply add_raises in H
  | H : divider _ _ = Raise IndexError |- _ => apply divider_raises in H
  end;
  match goal with
  | H : arithmetic_error _ |- _ => destruct H; discriminate
  end.

Ltac crunch_lists :=
  cbv -[app append to_float truediv add ltb PyNum.eqb divider format_f
        remove_char str_num mem strip];
  repeat (split_match;
          cbv -[app append to_float truediv add ltb PyNum.eqb divider format_f
                remove_char str_num mem strip]).

Section EveryCallMore.

Variable HI_Z : num.
Variable WAVE_TYPES : list Z.
Variable float_repr : float -> string.

(** X13. What a call can change of the object, whether it returns or
    raises: the port name and the timeout never change; the port object
    changes only by [initialize] and [disconnect]; the enabled flags only
    by [initialize] and [enable_output]; the loads and the coefficients
    only by [set_load_impedance]. *)
Theorem what_a_call_can_change (c : call) (w : world) :
  let d := self w in
  let d' := self (snd (run HI_Z WAVE_TYPES float_repr c w)) in
  port d' = port d /\
  timeout d' = timeout d /\
  (sets_port c = false -> ser d' = ser d) /\
  (sets_flags c = false -> channel_on d' = channel_on d) /\
  (sets_loads c = false -> r_load d' = r_load d /\ v_out_coeff d' = v_out_coeff d).
Proof.
  destruct w as [[? [[? ? ? ? ? ? [|]]|] ? ? ? ?] ?];
  destruct c as [ | |reply|channel on|channel freq|channel phase|channel wt
                 |channel a|channel o|channel z]; cbn [run];
    try destruct channel as [ch|];
    unfold_methods; crunch;
    repeat split; intros; try discriminate; reflexivity.
Qed.

(** X14. In a session whose per-channel lists have their two entries --
    every reachable session -- no call raises [IndexError], whatever its
    arguments: an index is only ever computed from a channel that passed
    the check. *)
Theorem never_index_error (c : call) (w : world) :
  reachable HI_Z WAVE_TYPES float_repr w ->
  two_channels (self w) /\
  fst (run HI_Z WAVE_TYPES float_repr c w) <> Raise IndexError.
Proof.
  intros Hr. pose proof (reachable_two_channels _ _ _ w Hr) as Hw.
  split; [exact Hw|]. clear Hr.
  destruct w as [[? s ? l rl vl] ?]. destruct Hw as (H1 & H2 & H3).
  cbn in H1, H2, H3.
  destruct l as [|b1 [|b2 [|]]]; try discriminate.
  destruct rl as [|z1 [|z2 [|]]]; try discriminate.
  destruct vl as [|c1 [|c2 [|]]]; try discriminate.
  clear H1 H2 H3.
  destruct s as [[? ? ? ? ? ? [|]]|];
  destruct c as [ | |reply|channel on|channel freq|channel phase|channel wt
                 |channel a|channel o|channel z]; cbn [run];
    try destruct channel as [ch|];
    try (destruct (bad_channel_cases ch) as [Hb|[->|[->| ->]]];
         [unfold_methods; rewrite Hb; discriminate| | |]);
    unfold_methods; crunch_lists; first [discriminate | not_arithmetic].
Qed.

End EveryCallMore.

Lemma what_a_call_can_change_witness :
  channel_on (self (snd (run sample_HI_Z sample_WAVE_TYPES sample_repr
                           (SetLoadImpedance (Some 1) (PyFloat f50)) bench))) =
  channel_on (self bench).
Proof.
  refine (proj1 (proj2 (proj2 (proj2
            (what_a_call_can_change sample_HI_Z sample_WAVE_TYPES sample_repr
               (SetLoadImpedance (Some 1) (PyFloat f50)) bench)))) _).
  reflexivity.
Defined.

Lemma never_index_error_witness :
  fst (run sample_HI_Z sample_WAVE_TYPES sample_repr
         (SetAmplitude (Some 0) (PyFloat f1)) bench) <> Raise IndexError.
Proof.
  exact (proj2 (never_index_error sample_HI_Z sample_WAVE_TYPES sample_repr
                  (SetAmplitude (Some 0) (PyFloat f1)) bench bench_reachable)).
Defined.

Section Sequences.

Variable HI_Z : num.
Variable WAVE_TYPES : list Z.
Variable float_repr : float -> string.

Lemma run_all_keeps_two_channels cs w :
  two_channels (self w) ->
  two_channels (self (run_all HI_Z WAVE_TYPES float_repr cs w)).
Proof.
  revert w. induction cs as [|c cs IH]; intros w Hw; cbn [run_all].
  - exact Hw.
  - apply IH. apply (keeps_run HI_Z WAVE_TYPES float_repr c w Hw).
Qed.

Lemma run_all_keeps_divided cs w k :
  two_channels (self w) ->
  divided HI_Z (self w) k ->
  all_returned HI_Z WAVE_TYPES float_repr cs w ->
  divided HI_Z (self (run_all HI_Z WAVE_TYPES float_repr cs w)) k.
Proof.
  revert w. induction cs as [|c cs IH]; intros w Hw Hk Hall; cbn [run_all].
  - exact Hk.
  - destruct Hall as [Hok Hrest]. apply IH.
    + apply (keeps_run HI_Z WAVE_TYPES float_repr c w Hw).
    + apply divided_kept; assumption.
    + exact Hrest.
Qed.

(** X15. Once [set_load_impedance(c, z)] has returned normally for a
    single channel [c], the coefficient stored for that channel is the
    divider of the load stored for it, and this stays so after any
    sequence of calls that all return normally (further
    [set_load_impedance] calls included): amplitude and offset are then
    always compensated for the load that was set last. *)
Theorem coefficient_follows_load (c : Z) (z : num) (cs : list call) (w : world) :
  c = 1 \/ c = 2 ->
  two_channels (self w) ->
  fst (set_load_impedance HI_Z (Some c) z w) = Ok tt ->
  let w1 := snd (set_load_impedance HI_Z (Some c) z w) in
  nth_error (r_load (self w1)) (Z.to_nat (c - 1)) = Some z /\
  divided HI_Z (self w1) (Z.to_nat (c - 1)) /\
  (all_returned HI_Z WAVE_TYPES float_repr cs w1 ->
   divided HI_Z (self (run_all HI_Z WAVE_TYPES float_repr cs w1)) (Z.to_nat (c - 1))).
Proof.
  intros Hch Hw Hok w1.
  assert (Hk : divided HI_Z (self w1) (Z.to_nat (c - 1))).
  { pose proof (divided_after_set_load_impedance HI_Z c z w (or_intror Hch) Hw Hok) as D.
    destruct Hch as [->| ->]; exact D. }
  assert (Hw1 : two_channels (self w1)).
  { apply (keeps_set_load_impedance HI_Z (Some c) z w Hw). }
  repeat split.
  - destruct (two_lists _ Hw) as (z1 & z2 & c1 & c2 & Hr & Hv).
    destruct (divider HI_Z z) as [v|e] eqn:Hd.
    + pose proof (set_load_impedance_lists HI_Z c z v w z1 z2 c1 c2
                    (or_intror Hch) Hr Hv Hd) as L.
      unfold w1. destruct (set_load_impedance HI_Z (Some c) z w) as [r w'].
      destruct L as (_ & Hr' & _). cbn [snd]. rewrite Hr'.
      destruct Hch as [->| ->]; reflexivity.
    + pose proof (set_load_impedance_raises HI_Z c z e w z1 z2 c1 c2
                    (or_intror Hch) Hr Hv Hd) as L.
      destruct (set_load_impedance HI_Z (Some c) z w) as [r w'].
      destruct L as (Hr' & _). cbn [fst] in Hok. congruence.
  - exact Hk.
  - intros Hall. apply run_all_keeps_divided; assumption.
Qed.

End Sequences.

Lemma coefficient_follows_load_witness :
  let w1 := snd (set_load_impedance sample_HI_Z (Some 1) (PyFloat f50) bench) in
  divided sample_HI_Z
    (self (run_all sample_HI_Z sample_WAVE_TYPES sample_repr
             [SetFrequency (Some 0) (PyInt 1000);
              SetLoadImpedance (Some 2) (PyFloat f150);
              EnableOutput (Some 1) true] w1)) 0.
Proof.
  refine (proj2 (proj2 (coefficient_follows_load sample_HI_Z sample_WAVE_TYPES
                          sample_repr 1 (PyFloat f50) _ bench _ _ _)) _).
  - left; reflexivity.
  - repeat split.
  - reflexivity.
  - repeat split.
Defined.

(** ** A coefficient of zero *)

(** X16. A load of 0 ohms gives a coefficient of 0.0, and with a
    coefficient of zero for the addressed channel both [set_amplitude]
    and [set_offset] raise [ZeroDivisionError] for every value (that
    converts to a float) and leave the world as it was: nothing is
    sent. *)
Theorem zero_coefficient_raises
    (HI_Z : num) (float_repr : float -> string) (c : Z) (x : num) (a : float)
    (s : bool) (w : world) (c1 c2 : num) :
  c = 1 \/ c = 2 ->
  v_out_coeff (self w) = [c1; c2] ->
  (if c =? 1 then c1 else c2) = PyFloat (S754_zero s) ->
  to_float x = Ok a ->
  set_amplitude (Some c) x w = (Raise ZeroDivisionError, w) /\
  set_offset float_repr (Some c) x w = (Raise ZeroDivisionError, w) /\
  (eqb (PyInt 0) HI_Z = false ->
   divider HI_Z (PyInt 0) = Ok (PyFloat (S754_zero false))).
Proof.
  intros Hch Hv Hz Hx.
  assert (Hq : truediv x (PyFloat (S754_zero s)) = Raise ZeroDivisionError).
  { unfold truediv, bind_result. destruct x as [n|f]; cbn [to_float] in *;
      rewrite ?Hx; try injection Hx as ->; reflexivity. }
  destruct w as [[? ? ? ? ? vl] ?]. cbn in Hv. subst vl.
  repeat split.
  - unfold set_amplitude. rewrite (bad_channel_valid c (or_intror Hch)).
    destruct Hch as [->| ->]; cbn in Hz; subst;
      cbv -[truediv]; rewrite Hq; reflexivity.
  - unfold set_offset. rewrite (bad_channel_valid c (or_intror Hch)).
    destruct Hch as [->| ->]; cbn in Hz; subst;
      cbv -[truediv]; rewrite Hq; reflexivity.
  - intros H. unfold divider. rewrite H. vm_compute. reflexivity.
Qed.

Lemma zero_coefficient_raises_witness :
  let w := snd (set_load_impedance sample_HI_Z (Some 1) (PyInt 0) bench) in
  set_amplitude (Some 1) (PyFloat f1) w = (Raise ZeroDivisionError, w).
Proof.
  refine (proj1 (zero_coefficient_raises sample_HI_Z sample_repr 1 (PyFloat f1) f1
                   false _ (PyFloat (S754_zero false)) (PyInt 1) _ _ _ _));
    [left; reflexivity | reflexivity | reflexivity | reflexivity].
Defined.

(** ** Identification *)

(** Texts that do not start, or do not end, with white space, and texts
    that are white space only. *)
Definition starts_clean (s : string) : Prop :=
  match s with
  | EmptyString => True
  | String a _ => isspace a = false
  end.

Fixpoint last_char (s : string) : option ascii :=
  match s with
  | EmptyString => None
  | String a EmptyString => Some a
  | String _ t => last_char t
  end.

Definition ends_clean (s : string) : Prop :=
  match last_char s with
  | None => True
  | Some a => isspace a = false
  end.

Fixpoint blank (s : string) : bool :=
  match s with
  | EmptyString => true
  | String a t => isspace a && blank t
  end.

Lemma lstrip_starts_clean s : starts_clean (lstrip s).
Proof.
  induction s as [|a t IH]; cbn [lstrip]; [exact I|].
  destruct (isspace a) eqn:E; [exact IH | exact E].
Qed.

Lemma lstrip_clean s : starts_clean s -> lstrip s = s.
Proof. destruct s as [|a t]; cbn; [reflexivity|]. intros ->. reflexivity. Qed.

Lemma lstrip_blank s : blank s = true -> lstrip s = "".
Proof.
  induction s as [|a t IH]; cbn; [reflexivity|].
  destruct (isspace a); [exact IH | discriminate].
Qed.

Lemma rstrip_blank s : blank s = true -> rstrip s = "".
Proof.
  induction s as [|a t IH]; cbn [blank rstrip]; [reflexivity|].
  intros H. apply andb_prop in H. destruct H as [Ha Ht].
  rewrite (IH Ht), Ha. reflexivity.
Qed.

Lemma rstrip_app_blank s ws : blank ws = true -> rstrip (s ++ ws) = rstrip s.
Proof.
  intros H. induction s as [|a t IH]; cbn [append rstrip].
  - apply rstrip_blank, H.
  - rewrite IH. reflexivity.
Qed.

Lemma rstrip_ends_clean s : ends_clean (rstrip s).
Proof.
  unfold ends_clean. induction s as [|a t IH]; cbn [rstrip]; [exact I|].
  destruct (rstrip t) as [|b u] eqn:E.
  - destruct (isspace a) eqn:Ea; cbn; [exact I | exact Ea].
  - exact IH.
Qed.

Lemma rstrip_clean s : ends_clean s -> rstrip s = s.
Proof.
  unfold ends_clean. induction s as [|a t IH]; [reflexivity|].
  destruct t as [|b u].
  - cbn. intros ->. reflexivity.
  - intros H. change (last_char (String a (String b u))) with (last_char (String b u)) in H.
    cbn [rstrip]. cbn [rstrip] in IH. rewrite (IH H). reflexivity.
Qed.

Lemma rstrip_starts_clean s : starts_clean s -> starts_clean (rstrip s).
Proof.
  destruct s as [|a t]; cbn [rstrip starts_clean]; [trivial|].
  intros Ha. destruct (rstrip t); [rewrite Ha|]; exact Ha.
Qed.

(** X17. [get_id] on an open port sends the one command [UID] and returns
    the device's reply with the white space around it removed: the
    result neither starts nor ends with white space, and a reply that is
    an identifier followed by white space only (the CR LF the device
    ends its answer with) comes back as the identifier. *)
Theorem get_id_returns_trimmed_reply (reply : string) (w : world) :
  connected w = true ->
  get_id reply w =
    (Ok (strip reply), sent w [Write ("UID" ++ EOL); Sleep SLEEP_TIME]) /\
  starts_clean (strip reply) /\
  ends_clean (strip reply) /\
  (forall id ws : string,
   reply = id ++ ws -> starts_clean id -> ends_clean id -> blank ws = true ->
   strip reply = id).
Proof.
  intros Hc. repeat split.
  - open_port w Hc. cbv -[app append strip]. rewrite <- ?app_assoc. reflexivity.
  - apply rstrip_starts_clean, lstrip_starts_clean.
  - apply rstrip_ends_clean.
  - intros id ws -> Hs He Hb. unfold strip. destruct id as [|a t].
    + cbn [append]. rewrite (lstrip_blank ws Hb). reflexivity.
    + rewrite (lstrip_clean (String a t ++ ws)) by exact Hs.
      rewrite rstrip_app_blank by exact Hb. apply rstrip_clean, He.
Qed.

Lemma get_id_returns_trimmed_reply_witness :
  get_id ("FY6600-60M" ++ String (ascii_of_nat 13) EOL) bench =
    (Ok "FY6600-60M", sent bench [Write ("UID" ++ EOL); Sleep SLEEP_TIME]).
Proof.
  refine (proj1 (get_id_returns_trimmed_reply _ bench _)). reflexivity.
Defined.

(** ** Single channels *)

(** X18. For a single channel [c] (1 or 2), [set_load_impedance(c, z)]
    with a defined divider returns normally, stores [z] as that
    channel's load and the divider of [z] as that channel's coefficient,
    and leaves the other channel's load and coefficient, the flags, the
    port and the trace as they were. The divider is 1 for the Hi-Z
    sentinel, 0.5 for 50.0 and 0.75 for 150.0. *)
Theorem set_load_impedance_single
    (HI_Z : num) (c : Z) (z v : num) (w : world) (z1 z2 c1 c2 : num) :
  c = 1 \/ c = 2 ->
  r_load (self w) = [z1; z2] ->
  v_out_coeff (self w) = [c1; c2] ->
  divider HI_Z z = Ok v ->
  (let (r, w') := set_load_impedance HI_Z (Some c) z w in
   r = Ok tt /\
   r_load (self w') = (if c =? 1 then [z; z2] else [z1; z]) /\
   v_out_coeff (self w') = (if c =? 1 then [v; c2] else [c1; v]) /\
   channel_on (self w') = channel_on (self w) /\
   ser (self w') = ser (self w) /\
   wire w' = wire w) /\
  (eqb z HI_Z = true -> v = PyInt 1) /\
  (eqb (PyFloat f50) HI_Z = false -> divider HI_Z (PyFloat f50) = Ok (PyFloat f0_5)) /\
  (eqb (PyFloat f150) HI_Z = false -> divider HI_Z (PyFloat f150) = Ok (PyFloat f0_75)).
Proof.
  intros Hch Hr Hv Hd. repeat split.
  - exact (set_load_impedance_lists HI_Z c z v w z1 z2 c1 c2 (or_intror Hch) Hr Hv Hd).
  - intros H. rewrite (divider_HI_Z HI_Z z H) in Hd. congruence.
  - apply divider_50.
  - apply divider_150.
Qed.

Lemma set_load_impedance_single_witness :
  let (r, w') := set_load_impedance sample_HI_Z (Some 1) (PyFloat f150) bench in
  r = Ok tt /\
  r_load (self w') = [PyFloat f150; PyInt 50] /\
  v_out_coeff (self w') = [PyFloat f0_75; PyInt 1] /\
  channel_on (self w') = channel_on (self bench) /\
  ser (self w') = ser (self bench) /\
  wire w' = wire bench.
Proof.
  refine (proj1 (set_load_impedance_single sample_HI_Z 1 (PyFloat f150)
                   (PyFloat f0_75) bench (PyInt 50) (PyInt 50) (PyInt 1) (PyInt 1)
                   _ _ _ _));
    [left; reflexivity | reflexivity | reflexivity | reflexivity].
Defined.

(** X19. Setting the load of channel 1 and setting the load of channel 2
    commute: in either order the two calls return normally and leave the
    same world, with each channel's own load and coefficient. *)
Theorem set_load_impedance_commutes
    (HI_Z : num) (za zb va vb : num) (w : world) :
  two_channels (self w) ->
  divider HI_Z za = Ok va ->
  divider HI_Z zb = Ok vb ->
  let ab := set_load_impedance HI_Z (Some 2) zb
              (snd (set_load_impedance HI_Z (Some 1) za w)) in
  let ba := set_load_impedance HI_Z (Some 1) za
              (snd (set_load_impedance HI_Z (Some 2) zb w)) in
  ab = ba /\
  fst ab = Ok tt /\
  r_load (self (snd ab)) = [za; zb] /\
  v_out_coeff (self (snd ab)) = [va; vb].
Proof.
  intros Hw Ha Hb.
  destruct w as [[? ? ? l rl vl] ?]. destruct Hw as (H1 & H2 & H3).
  cbn in H1, H2, H3.
  destruct rl as [|z1 [|z2 [|]]]; try discriminate.
  destruct vl as [|c1 [|c2 [|]]]; try discriminate.
  cbv -[divider]. rewrite ?Ha, ?Hb. cbv -[divider]. rewrite ?Ha, ?Hb.
  cbv -[divider]. repeat split.
Qed.

Lemma set_load_impedance_commutes_witness :
  set_load_impedance sample_HI_Z (Some 2) (PyFloat f150)
    (snd (set_load_impedance sample_HI_Z (Some 1) (PyFloat f50) bench)) =
  set_load_impedance sample_HI_Z (Some 1) (PyFloat f50)
    (snd (set_load_impedance sample_HI_Z (Some 2) (PyFloat f150) bench)).
Proof.
  refine (proj1 (set_load_impedance_commutes sample_HI_Z (PyFloat f50)
                   (PyFloat f150) (PyFloat f0_5) (PyFloat f0_75) bench _ _ _));
    [repeat split | reflexivity | reflexivity].
Defined.

(** X20. For a single channel [c] (1 or 2), [set_amplitude] on an open
    port divides the amplitude by that channel's own coefficient and
    sends the quotient with exactly three decimals in one command: [WMA]
    for channel 1, [WFA] for channel 2. The other channel's coefficient
    plays no part. *)
Theorem set_amplitude_own_coefficient
    (c : Z) (amplitude : num) (q : float) (w : world) (c1 c2 : num) :
  c = 1 \/ c = 2 ->
  connected w = true ->
  v_out_coeff (self w) = [c1; c2] ->
  truediv amplitude (if c =? 1 then c1 else c2) = Ok (PyFloat q) ->
  set_amplitude (Some c) amplitude w =
    (Ok tt, sent w [Write ((if c =? 1 then "WMA" else "WFA") ++ format_f 3 q ++ EOL);
                    Sleep SLEEP_TIME]).
Proof.
  intros Hch Hc Hv Hq. open_port w Hc. cbn in Hv. subst.
  unfold set_amplitude. rewrite (bad_channel_valid c (or_intror Hch)).
  destruct Hch as [->| ->]; cbn in Hq;
    cbv -[app append truediv format_f]; rewrite Hq;
    cbv -[app append format_f]; rewrite <- ?app_assoc; reflexivity.
Qed.

Lemma set_amplitude_own_coefficient_witness :
  let w := snd (set_load_impedance sample_HI_Z (Some 2) (PyFloat f150) bench) in
  set_amplitude (Some 2) (PyInt 3) w =
    (Ok tt, sent w [Write ("WFA" ++ "4.000" ++ EOL); Sleep SLEEP_TIME]).
Proof.
  refine (set_amplitude_own_coefficient 2 (PyInt 3)
            (S754_finite false 4503599627370496 (-50)) _ (PyInt 1) (PyFloat f0_75) _ _ _ _);
    [right; reflexivity | reflexivity | reflexivity | vm_compute; reflexivity].
Defined.
